(** * Geo-Analytics API: error handling and structured logging

    A shallow embedding of [middleware/error_handler.py] and
    [utils/logger.py], followed by the properties of the error taxonomy,
    the error response builder, the exception handlers, the JSON log
    formatter, the logger adapter and the performance scope.

    Conventions of the embedding.
    - Python text is a [string]; one [ascii] stands for one code point
      below 256.
    - A Python [dict] with text keys is an association list in insertion
      order; [dict_set] and [dict_update] follow the assignment and
      [update] of Python (an existing key keeps its place and takes the
      new value, a new key goes to the end).
    - A finite Python [float] is the rational number it denotes; the
      three non-finite floats are [VFloatNonFinite].
    - What the code reads from its surroundings (the fresh uuid, the
      clock, the environment, the active exception, the correlation id)
      is a field of [World]; what it writes (log records handed to the
      logger's handlers, lines printed on standard output) is threaded
      through the [IO] monad.
    - What the interpreter itself decides (how a finite float is
      printed, what [%] makes of a message and its arguments, how many
      digits an integer may have when it is turned into text) is a field
      of [Interpreter], which a [World] carries. *)

From Stdlib Require Import String Ascii List ZArith QArith Qround Bool Lia.
From Stdlib Require Import DecimalString DecimalPos DecimalFacts.
Import ListNotations.

Local Open Scope string_scope.
Local Open Scope Z_scope.

(* ===================================================================== *)
(** * Python values *)
(* ===================================================================== *)

Module Py.

(** A Python exception as the code observes it: the class name
    ([type(e).__name__]), the text ([str(e)]) and the formatted stack
    entries of its traceback. *)
Record PyExc : Type := mkExc {
  exc_type : string;
  exc_text : string;
  exc_tb : string
}.

Inductive result (A : Type) : Type :=
| Ok (a : A)
| Raise (e : PyExc).
Arguments Ok {A} a.
Arguments Raise {A} e.

Definition TypeError (msg : string) : PyExc := mkExc "TypeError" msg EmptyString.
Definition AttributeError (msg : string) : PyExc := mkExc "AttributeError" msg EmptyString.
Definition ModuleNotFoundError (msg : string) : PyExc :=
  mkExc "ModuleNotFoundError" msg EmptyString.
Definition ValueError (msg : string) : PyExc := mkExc "ValueError" msg EmptyString.

Inductive nonfinite : Type := NaN | PosInf | NegInf.

Unset Elimination Schemes.
(** The values that travel through details maps and log records.
    [VObject cls] is any object the [json] module has no encoding for
    (a [set], a [datetime], [bytes], an instance of a user class). *)
Inductive pyval : Type :=
| VNone
| VBool (b : bool)
| VInt (z : Z)
| VFloat (q : Q)
| VFloatNonFinite (f : nonfinite)
| VStr (s : string)
| VList (l : list pyval)
| VDict (d : list (string * pyval))
| VObject (cls : string).
Set Elimination Schemes.

Definition dict : Type := list (string * pyval).

(** The interpreter, where the code leaves a decision to it.
    [float_repr] is [float.__repr__] on finite floats. [str_mod msg args]
    is [msg % args] as [LogRecord.getMessage] applies it; it raises when
    the message does not fit its arguments. [int_max_str_digits] is the
    limit on the digits of an integer that is turned into text
    ([sys.get_int_max_str_digits()]): [None] without a limit, [Some n]
    for a limit of [640 + n] digits, as the interpreter accepts no limit
    below 640 (the default of CPython 3.11 and later, 4300, is
    [Some 3660]). *)
Record Interpreter : Type := mkInterpreter {
  float_repr : Q -> string;
  str_mod : string -> list pyval -> result string;
  int_max_str_digits : option nat
}.

(** Induction on values, through the lists and dicts they nest in. *)
Definition pyval_ind (P : pyval -> Prop)
    (HNone : P VNone)
    (HBool : forall b, P (VBool b))
    (HInt : forall z, P (VInt z))
    (HFloat : forall q, P (VFloat q))
    (HNonFinite : forall f, P (VFloatNonFinite f))
    (HStr : forall s, P (VStr s))
    (HList : forall l, Forall P l -> P (VList l))
    (HDict : forall d, Forall (fun kv => P (snd kv)) d -> P (VDict d))
    (HObject : forall cls, P (VObject cls)) : forall v, P v :=
  fix F (v : pyval) : P v :=
    match v with
    | VNone => HNone
    | VBool b => HBool b
    | VInt z => HInt z
    | VFloat q => HFloat q
    | VFloatNonFinite f => HNonFinite f
    | VStr s => HStr s
    | VList l =>
        HList l ((fix G (l : list pyval) : Forall P l :=
                    match l with
                    | [] => Forall_nil P
                    | x :: r => Forall_cons x (F x) (G r)
                    end) l)
    | VDict d =>
        HDict d ((fix G (d : list (string * pyval))
                    : Forall (fun kv => P (snd kv)) d :=
                    match d with
                    | [] => Forall_nil _
                    | kv :: r =>
                        Forall_cons (P := fun kv => P (snd kv)) kv
                          (F (snd kv)) (G r)
                    end) d)
    | VObject cls => HObject cls
    end.

Section Traverse.
Context {A B : Type}.

(** Run [f] over a list from left to right; the first exception ends
    the run. *)
Definition result_all (f : A -> result B) : list A -> result (list B) :=
  fix go (l : list A) : result (list B) :=
    match l with
    | [] => Ok []
    | x :: r =>
        match f x with
        | Raise e => Raise e
        | Ok y =>
            match go r with
            | Raise e => Raise e
            | Ok ys => Ok (y :: ys)
            end
        end
    end.

Definition option_all (f : A -> option B) : list A -> option (list B) :=
  fix go (l : list A) : option (list B) :=
    match l with
    | [] => Some []
    | x :: r =>
        match f x, go r with
        | Some y, Some ys => Some (y :: ys)
        | _, _ => None
        end
    end.
End Traverse.

Section Dict.
Context {V : Type}.

Fixpoint dict_get (k : string) (d : list (string * V)) : option V :=
  match d with
  | [] => None
  | (k', v) :: r => if String.eqb k k' then Some v else dict_get k r
  end.

(** [d[k] = v] *)
Fixpoint dict_set (k : string) (v : V) (d : list (string * V)) : list (string * V) :=
  match d with
  | [] => [(k, v)]
  | (k', v') :: r =>
      if String.eqb k k' then (k', v) :: r else (k', v') :: dict_set k v r
  end.

(** [d.update(other)], also [{**d, **other}] *)
Definition dict_update (d other : list (string * V)) : list (string * V) :=
  fold_left (fun acc kv => dict_set (fst kv) (snd kv) acc) other d.

(** [k in d] *)
Definition dict_mem (k : string) (d : list (string * V)) : bool :=
  match dict_get k d with Some _ => true | None => false end.

Definition dict_keys (d : list (string * V)) : list string := map fst d.

(** [del d[k]] where present *)
Fixpoint dict_remove (k : string) (d : list (string * V)) : list (string * V) :=
  match d with
  | [] => []
  | (k', v) :: r =>
      if String.eqb k k' then dict_remove k r else (k', v) :: dict_remove k r
  end.

(** A dict holds a key once: the invariant of the representation. *)
Fixpoint dict_wf (d : list (string * V)) : bool :=
  match d with
  | [] => true
  | (k, _) :: r => negb (dict_mem k r) && dict_wf r
  end.
End Dict.

(** Truth value of a text and of a dict, as [if s:] and [if d:] test it. *)
Definition str_truthy (s : string) : bool :=
  match s with EmptyString => false | String _ _ => true end.

Definition dict_truthy {V : Type} (d : list (string * V)) : bool :=
  match d with [] => false | _ :: _ => true end.

(** [str.lower] and [str.upper] on code points below 256. *)
Definition lower_char (c : ascii) : ascii :=
  let n := N_of_ascii c in
  if ((65 <=? n) && (n <=? 90))%N then ascii_of_N (n + 32)
  else if ((192 <=? n) && (n <=? 222) && negb (n =? 215))%N then ascii_of_N (n + 32)
  else c.

Definition upper_char (c : ascii) : ascii :=
  let n := N_of_ascii c in
  if ((97 <=? n) && (n <=? 122))%N then ascii_of_N (n - 32)
  else if ((224 <=? n) && (n <=? 254) && negb (n =? 247))%N then ascii_of_N (n - 32)
  else c.

Fixpoint str_map (f : ascii -> ascii) (s : string) : string :=
  match s with
  | EmptyString => EmptyString
  | String c r => String (f c) (str_map f r)
  end.

Definition lower : string -> string := str_map lower_char.
Definition upper : string -> string := str_map upper_char.

Definition nl : string := String "010"%char EmptyString.

(** [''.join(traceback.format_exception(type, value, tb))]: the header and
    the stack entries when there is a traceback, then the line naming the
    exception (the class is written without its module). *)
Definition format_exception_only (e : PyExc) : string :=
  if str_truthy (exc_text e)
  then exc_type e ++ ": " ++ exc_text e ++ nl
  else exc_type e ++ nl.

Definition format_exception (e : PyExc) : string :=
  (if str_truthy (exc_tb e)
   then "Traceback (most recent call last):" ++ nl ++ exc_tb e
   else EmptyString)
  ++ format_exception_only e.

(** [traceback.format_exc()], reading [sys.exc_info()]. *)
Definition format_exc (active : option PyExc) : string :=
  match active with
  | Some e => format_exception e
  | None => "NoneType: None" ++ nl
  end.

End Py.
Import Py.

(* ===================================================================== *)
(** * The [json] module: [json.dumps] *)
(* ===================================================================== *)

Module Json.

Definition dq : string := String "034"%char EmptyString.
Definition backslash : string := String "092"%char EmptyString.

(** [str(n)] for an [int]. *)
Definition str_of_int (z : Z) : string :=
  DecimalString.NilEmpty.string_of_int (Z.to_int z).

Definition hex_digit (n : N) : ascii :=
  if (n <? 10)%N then ascii_of_N (48 + n) else ascii_of_N (87 + n).

(** One code point under [ensure_ascii=True]: the quote and the backslash
    are escaped, the printable ASCII range is kept, five control
    characters have a short escape and the rest is written [\u00xx]. *)
Definition escape_char (c : ascii) : string :=
  let n := N_of_ascii c in
  if (n =? 34)%N then backslash ++ dq
  else if (n =? 92)%N then backslash ++ backslash
  else if ((32 <=? n) && (n <=? 126))%N then String c EmptyString
  else if (n =? 10)%N then backslash ++ "n"
  else if (n =? 13)%N then backslash ++ "r"
  else if (n =? 9)%N then backslash ++ "t"
  else if (n =? 12)%N then backslash ++ "f"
  else if (n =? 8)%N then backslash ++ "b"
  else backslash ++ "u00"
       ++ String (hex_digit (n / 16)) (String (hex_digit (n mod 16)) EmptyString).

Fixpoint escape_body (s : string) : string :=
  match s with
  | EmptyString => EmptyString
  | String c r => escape_char c ++ escape_body r
  end.

Definition encode_basestring_ascii (s : string) : string :=
  dq ++ escape_body s ++ dq.

(** One code point under [ensure_ascii=False]: only the quote, the
    backslash and the control characters are escaped. *)
Definition escape_char_raw (c : ascii) : string :=
  let n := N_of_ascii c in
  if ((32 <=? n) && negb (n =? 34) && negb (n =? 92))%N
  then String c EmptyString
  else escape_char c.

Fixpoint escape_body_raw (s : string) : string :=
  match s with
  | EmptyString => EmptyString
  | String c r => escape_char_raw c ++ escape_body_raw r
  end.

Definition encode_basestring (s : string) : string :=
  dq ++ escape_body_raw s ++ dq.

(** [sep.join(parts)] *)
Fixpoint join (sep : string) (parts : list string) : string :=
  match parts with
  | [] => EmptyString
  | [p] => p
  | p :: r => p ++ sep ++ join sep r
  end.

Definition not_serializable (cls : string) : PyExc :=
  TypeError ("Object of type " ++ cls ++ " is not JSON serializable").

Definition out_of_range_float : PyExc :=
  ValueError "Out of range float values are not JSON compliant".

Definition nonfinite_repr (f : nonfinite) : string :=
  match f with NaN => "NaN" | PosInf => "Infinity" | NegInf => "-Infinity" end.

(** The number of decimal digits of an integer, its sign set aside. *)
Definition digits (z : Z) : nat := String.length (str_of_int (Z.abs z)).

(** Whether the interpreter turns the integer into text. *)
Definition int_fits (py : Interpreter) (z : Z) : bool :=
  match int_max_str_digits py with
  | None => true
  | Some n => Nat.leb (digits z) (640 + n)
  end.

Definition int_limit_exceeded (py : Interpreter) : PyExc :=
  ValueError
    ("Exceeds the limit ("
     ++ match int_max_str_digits py with
        | Some n => str_of_int (Z.of_nat (640 + n))
        | None => EmptyString
        end
     ++ " digits) for integer string conversion; "
     ++ "use sys.set_int_max_str_digits() to increase the limit").

(** [int.__repr__] *)
Definition repr_int (py : Interpreter) (z : Z) : result string :=
  if int_fits py z then Ok (str_of_int z) else Raise (int_limit_exceeded py).

(** The options of [json.dumps] that its callers set. *)
Record Options : Type := mkOptions {
  ensure_ascii : bool;
  allow_nan : bool;
  item_separator : string;
  key_separator : string
}.

(** [json.dumps(obj)] *)
Definition default_options : Options := mkOptions true true ", " ": ".

Definition encode_string (o : Options) (s : string) : string :=
  if ensure_ascii o then encode_basestring_ascii s else encode_basestring s.

(** The exceptions of the encoder: the [TypeError] of an object
    without an encoding, the [ValueError] of a non-finite float where
    these are not allowed, and the [ValueError] of an integer beyond
    the limit of the interpreter. *)
Definition encoder_error (py : Interpreter) (nan_allowed : bool) (e : PyExc)
    : Prop :=
  (exists cls, e = not_serializable cls)
  \/ (nan_allowed = false /\ e = out_of_range_float)
  \/ e = int_limit_exceeded py.

(** [json.dumps(v, ensure_ascii=..., allow_nan=..., separators=...)] *)
Fixpoint dumps (py : Interpreter) (o : Options) (v : pyval) : result string :=
  match v with
  | VNone => Ok "null"
  | VBool true => Ok "true"
  | VBool false => Ok "false"
  | VInt z => repr_int py z
  | VFloat q => Ok (float_repr py q)
  | VFloatNonFinite f =>
      if allow_nan o then Ok (nonfinite_repr f) else Raise out_of_range_float
  | VStr s => Ok (encode_string o s)
  | VList l =>
      match result_all (dumps py o) l with
      | Raise e => Raise e
      | Ok ts => Ok ("[" ++ join (item_separator o) ts ++ "]")
      end
  | VDict d =>
      match result_all
              (fun kv =>
                 match dumps py o (snd kv) with
                 | Raise e => Raise e
                 | Ok t => Ok (encode_string o (fst kv) ++ key_separator o ++ t)
                 end) d with
      | Raise e => Raise e
      | Ok ts => Ok ("{" ++ join (item_separator o) ts ++ "}")
      end
  | VObject cls => Raise (not_serializable cls)
  end.

(** ** JSON texts (RFC 8259) *)

Unset Elimination Schemes.
Inductive json : Type :=
| JNull
| JBool (b : bool)
| JNumber (lexeme : string)
| JString (s : string)
| JArray (l : list json)
| JObject (m : list (string * json)).
Set Elimination Schemes.

Definition is_ws_char (c : ascii) : bool :=
  let n := N_of_ascii c in
  ((n =? 32) || (n =? 9) || (n =? 10) || (n =? 13))%N.

Fixpoint is_ws (s : string) : bool :=
  match s with
  | EmptyString => true
  | String c r => is_ws_char c && is_ws r
  end.

Definition is_digit (c : ascii) : bool :=
  let n := N_of_ascii c in ((48 <=? n) && (n <=? 57))%N.

Definition is_hex (c : ascii) : bool :=
  let n := N_of_ascii c in
  (((48 <=? n) && (n <=? 57)) || ((97 <=? n) && (n <=? 102))
   || ((65 <=? n) && (n <=? 70)))%N.

Definition hex_value (c : ascii) : N :=
  let n := N_of_ascii c in
  if (n <=? 57)%N then (n - 48)%N
  else if (97 <=? n)%N then (n - 87)%N else (n - 55)%N.

Fixpoint skip_digits (s : string) : string :=
  match s with
  | String c r => if is_digit c then skip_digits r else s
  | EmptyString => s
  end.

Definition starts_with_digit (s : string) : bool :=
  match s with String c _ => is_digit c | EmptyString => false end.

Definition is_empty (s : string) : bool :=
  match s with EmptyString => true | String _ _ => false end.

(** [exp = ("e" / "E") ["-" / "+"] 1*DIGIT], or nothing. *)
Definition number_exp (s : string) : bool :=
  match s with
  | EmptyString => true
  | String c r =>
      if ((N_of_ascii c =? 101) || (N_of_ascii c =? 69))%N then
        let r' := match r with
                  | String c' r'' =>
                      if ((N_of_ascii c' =? 43) || (N_of_ascii c' =? 45))%N
                      then r'' else r
                  | EmptyString => r
                  end in
        starts_with_digit r' && is_empty (skip_digits r')
      else false
  end.

(** [frac = "." 1*DIGIT], or nothing, then the exponent. *)
Definition number_frac (s : string) : bool :=
  match s with
  | String c r =>
      if (N_of_ascii c =? 46)%N
      then starts_with_digit r && number_exp (skip_digits r)
      else number_exp s
  | EmptyString => true
  end.

(** [int = "0" / (digit1-9 *DIGIT)], then the fraction. *)
Definition number_int (s : string) : bool :=
  match s with
  | String c r =>
      if (N_of_ascii c =? 48)%N then number_frac r
      else if is_digit c then number_frac (skip_digits r)
      else false
  | EmptyString => false
  end.

(** [number = [ "-" ] int [ frac ] [ exp ]] *)
Definition is_json_number (s : string) : bool :=
  match s with
  | String c r => if (N_of_ascii c =? 45)%N then number_int r else number_int s
  | EmptyString => false
  end.

(** The characters between the quotes of a JSON string and the text they
    denote. *)
Inductive StrBody : string -> string -> Prop :=
| SB_nil : StrBody EmptyString EmptyString
| SB_plain c b s :
    (32 <=? N_of_ascii c)%N = true ->
    (N_of_ascii c =? 34)%N = false ->
    (N_of_ascii c =? 92)%N = false ->
    StrBody b s -> StrBody (String c b) (String c s)
| SB_escape e c b s :
    In (e, c) [("034", "034"); ("092", "092"); ("047", "047");
               ("b", "008"); ("f", "012"); ("n", "010");
               ("r", "013"); ("t", "009")]%char ->
    StrBody b s ->
    StrBody (String "092"%char (String e b)) (String c s)
| SB_unicode h1 h2 h3 h4 b s :
    is_hex h1 = true -> is_hex h2 = true ->
    is_hex h3 = true -> is_hex h4 = true ->
    hex_value h1 = 0%N -> hex_value h2 = 0%N ->
    StrBody b s ->
    StrBody (String "092"%char (String "u"%char
               (String h1 (String h2 (String h3 (String h4 b))))))
            (String (ascii_of_N (16 * hex_value h3 + hex_value h4)) s).

(** [Value t j]: the text [t] is a JSON value and denotes [j]. *)
Inductive Value : string -> json -> Prop :=
| V_null : Value "null" JNull
| V_true : Value "true" (JBool true)
| V_false : Value "false" (JBool false)
| V_number t : is_json_number t = true -> Value t (JNumber t)
| V_string b s : StrBody b s -> Value (dq ++ b ++ dq) (JString s)
| V_array_empty w : is_ws w = true -> Value ("[" ++ w ++ "]") (JArray [])
| V_array t l : Elements t l -> Value ("[" ++ t ++ "]") (JArray l)
| V_object_empty w : is_ws w = true -> Value ("{" ++ w ++ "}") (JObject [])
| V_object t m : Members t m -> Value ("{" ++ t ++ "}") (JObject m)
with Elements : string -> list json -> Prop :=
| E_last w1 t w2 j :
    is_ws w1 = true -> is_ws w2 = true -> Value t j ->
    Elements (w1 ++ t ++ w2) [j]
| E_more w1 t w2 j rest l :
    is_ws w1 = true -> is_ws w2 = true -> Value t j -> Elements rest l ->
    Elements (w1 ++ t ++ w2 ++ "," ++ rest) (j :: l)
with Members : string -> list (string * json) -> Prop :=
| M_last w1 kb k w2 w3 t w4 j :
    is_ws w1 = true -> is_ws w2 = true -> is_ws w3 = true -> is_ws w4 = true ->
    StrBody kb k -> Value t j ->
    Members (w1 ++ dq ++ kb ++ dq ++ w2 ++ ":" ++ w3 ++ t ++ w4) [(k, j)]
| M_more w1 kb k w2 w3 t w4 j rest m :
    is_ws w1 = true -> is_ws w2 = true -> is_ws w3 = true -> is_ws w4 = true ->
    StrBody kb k -> Value t j -> Members rest m ->
    Members (w1 ++ dq ++ kb ++ dq ++ w2 ++ ":" ++ w3 ++ t ++ w4 ++ "," ++ rest)
            ((k, j) :: m).

(** The text [dumps] writes for one member of an object. *)
Definition MemberText (o : Options) (m : string) (kj : string * json) : Prop :=
  exists t, m = (encode_string o (fst kj) ++ key_separator o ++ t)%string
            /\ Value t (snd kj).

(** [JsonText t j]: [JSON-text = ws value ws]. *)
Definition JsonText (t : string) (j : json) : Prop :=
  exists w1 v w2, t = w1 ++ v ++ w2 /\ is_ws w1 = true /\ is_ws w2 = true /\ Value v j.

(** The JSON value a Python value is encoded as; [None] where the
    encoder has no JSON for it. *)
Fixpoint json_of (py : Interpreter) (v : pyval) : option json :=
  match v with
  | VNone => Some JNull
  | VBool b => Some (JBool b)
  | VInt z => if int_fits py z then Some (JNumber (str_of_int z)) else None
  | VFloat q => Some (JNumber (float_repr py q))
  | VFloatNonFinite _ => None
  | VStr s => Some (JString s)
  | VList l => option_map JArray (option_all (json_of py) l)
  | VDict d =>
      option_map JObject
        (option_all
           (fun kv =>
              match json_of py (snd kv) with
              | Some j => Some (fst kv, j)
              | None => None
              end) d)
  | VObject _ => None
  end.

(** The values [dumps] accepts, at any depth: no object without an
    encoding, no integer beyond the limit of the interpreter, and a
    non-finite float only under [allow_nan]. *)
Fixpoint encodable (py : Interpreter) (nan_allowed : bool) (v : pyval) : bool :=
  match v with
  | VObject _ => false
  | VInt z => int_fits py z
  | VFloatNonFinite _ => nan_allowed
  | VList l => forallb (encodable py nan_allowed) l
  | VDict d => forallb (fun kv => encodable py nan_allowed (snd kv)) d
  | _ => true
  end.

(** The values that have a JSON counterpart: those [dumps] accepts
    without [allow_nan]. *)
Definition json_safe (py : Interpreter) (v : pyval) : bool :=
  encodable py false v.

(** Printable ASCII: from the space to the tilde. *)
Definition printable_char (c : ascii) : bool :=
  let n := N_of_ascii c in ((32 <=? n) && (n <=? 126))%N.

Fixpoint printable (s : string) : bool :=
  match s with
  | EmptyString => true
  | String c r => printable_char c && printable r
  end.

End Json.

(* ===================================================================== *)
(** * The standard [logging] module, as far as the code drives it *)
(* ===================================================================== *)

Module Logging.

Inductive Level : Type := DEBUG | INFO | WARNING | ERROR | CRITICAL.

Definition levelno_of (l : Level) : Z :=
  match l with
  | DEBUG => 10 | INFO => 20 | WARNING => 30 | ERROR => 40 | CRITICAL => 50
  end.

Definition getLevelName (l : Level) : string :=
  match l with
  | DEBUG => "DEBUG" | INFO => "INFO" | WARNING => "WARNING"
  | ERROR => "ERROR" | CRITICAL => "CRITICAL"
  end.

(** A [logging.LogRecord], with the attributes the formatter reads.
    [msg] and [args] are the message of the call and the arguments
    given after it. [exc_info] is [None] when the call gave none,
    [Some None] for the triple [(None, None, None)] that [exc_info=True]
    yields when no exception is being handled, and [Some (Some e)]
    otherwise. [extra_fields] is [None] when the record has no such
    attribute. *)
Record LogRecord : Type := mkRecord {
  levelname : string;
  levelno : Z;
  name : string;
  msg : string;
  args : list pyval;
  module : string;
  funcName : string;
  lineno : Z;
  exc_info : option (option PyExc);
  extra_fields : option dict
}.

(** A [logging.Logger]: its name and the level set on it ([0] is
    [NOTSET]). *)
Record Logger : Type := mkLogger {
  logger_name : string;
  logger_level : Z
}.

(** The root logger is left at its default level, [WARNING]: nothing in
    the code configures it. *)
Definition getEffectiveLevel (lg : Logger) : Z :=
  if logger_level lg =? 0 then levelno_of WARNING else logger_level lg.

Definition isEnabledFor (lg : Logger) (l : Level) : bool :=
  getEffectiveLevel lg <=? levelno_of l.

(** The [exc_info] keyword of a log call. *)
Inductive ExcArg : Type :=
| ExcNone
| ExcTrue
| ExcTuple (e : PyExc).

(** The [extra] keyword of a log call: left out, given as [None], or
    given as a mapping, whose [extra_fields] entry, when it has one, is
    a dict. *)
Inductive ExtraArg : Type :=
| ExtraAbsent
| ExtraNone
| ExtraMapping (fields : option dict).

(** The keywords of a log call. *)
Record LogKwargs : Type := mkKwargs {
  kw_extra : ExtraArg;
  kw_exc_info : ExcArg
}.

(** Where a log call stands in the code. *)
Record CallSite : Type := mkSite {
  site_module : string;
  site_funcName : string;
  site_lineno : Z
}.

(** What a call reads from its surroundings. *)
Record World : Type := mkWorld {
  uuid4 : string;                     (* str(uuid.uuid4()) *)
  utcnow : string;                    (* datetime.utcnow().isoformat() *)
  time_time : Q;                      (* time.time() *)
  request_id_var : option string;     (* request_id_var.get() *)
  sys_exc_info : option PyExc;        (* the exception being handled *)
  environ_DEBUG : option string;      (* os.environ.get("DEBUG") *)
  logger_importable : bool;           (* whether utils.logger can be imported *)
  getLogger : string -> Logger;       (* logging.getLogger *)
  python : Interpreter                (* the interpreter the code runs on *)
}.

(** What a call leaves behind: the records handed to the logger's
    handlers and the lines printed on standard output, oldest first. *)
Record Output : Type := mkOutput {
  handled : list LogRecord;
  printed : list string
}.

Definition IO (A : Type) : Type := Output -> result A * Output.

Definition ret {A : Type} (a : A) : IO A := fun out => (Ok a, out).

Definition bind {A B : Type} (c : IO A) (k : A -> IO B) : IO B :=
  fun out =>
    match c out with
    | (Ok a, out') => k a out'
    | (Raise e, out') => (Raise e, out')
    end.

Definition raise {A : Type} (e : PyExc) : IO A := fun out => (Raise e, out).

(** A computation that writes nothing. *)
Definition lift {A : Type} (r : result A) : IO A := fun out => (r, out).

(** [try: c  except cls: h]; [classes] lists [cls] and its subclasses. *)
Definition try_except {A : Type} (c : IO A) (classes : list string) (h : IO A)
    : IO A :=
  fun out =>
    match c out with
    | (Ok a, out') => (Ok a, out')
    | (Raise e, out') =>
        if existsb (String.eqb (exc_type e)) classes
        then h out' else (Raise e, out')
    end.

(** [ImportError] and the subclass raised for a missing module. *)
Definition ImportError_classes : list string :=
  ["ImportError"; "ModuleNotFoundError"].

Definition handle (r : LogRecord) : IO unit :=
  fun out => (Ok tt, mkOutput (handled out ++ [r]) (printed out)).

Definition print (line : string) : IO unit :=
  fun out => (Ok tt, mkOutput (handled out) (printed out ++ [line])).

Definition empty_output : Output := mkOutput [] [].

(** The text of a message and its arguments: the message, with [%]
    applied to it when there are arguments. *)
Definition format_message (py : Interpreter) (msg : string)
    (args : list pyval) : result string :=
  match args with
  | [] => Ok msg
  | _ :: _ => str_mod py msg args
  end.

(** [record.getMessage()] *)
Definition getMessage (py : Interpreter) (record : LogRecord) : result string :=
  format_message py (msg record) (args record).

Definition makeRecord (w : World) (lg : Logger) (l : Level) (site : CallSite)
    (msg : string) (args : list pyval) (kw : LogKwargs) : LogRecord :=
  {| levelname := getLevelName l;
     levelno := levelno_of l;
     name := logger_name lg;
     msg := msg;
     args := args;
     module := site_module site;
     funcName := site_funcName site;
     lineno := site_lineno site;
     exc_info := match kw_exc_info kw with
                 | ExcNone => None
                 | ExcTrue => Some (sys_exc_info w)
                 | ExcTuple e => Some (Some e)
                 end;
     extra_fields := match kw_extra kw with
                     | ExtraMapping (Some d) => Some d
                     | _ => None
                     end |}.

(** [Logger.log(level, msg, *args, **kwargs)], and so [info], [error] and
    [critical]. *)
Definition log (w : World) (lg : Logger) (l : Level) (site : CallSite)
    (msg : string) (args : list pyval) (kw : LogKwargs) : IO unit :=
  if isEnabledFor lg l then handle (makeRecord w lg l site msg args kw)
  else ret tt.

End Logging.
Import Logging.

Declare Scope io_scope.
Delimit Scope io_scope with io.
Notation "x <- c ;; k" := (Logging.bind c (fun x => k))
  (at level 61, c at next level, right associativity) : io_scope.
Notation "c ;;; k" := (Logging.bind c (fun _ => k))
  (at level 61, right associativity) : io_scope.

(* ===================================================================== *)
(** * [utils/logger.py] *)
(* ===================================================================== *)

Module Logger.

Module JSONFormatter.
(** The [log_data] dict that [format] builds before encoding it. *)
Definition log_data (w : World) (record : LogRecord) : result dict :=
  match getMessage (python w) record with
  | Raise e => Raise e
  | Ok message =>
      let log_data : dict :=
        [ ("timestamp", VStr (utcnow w ++ "Z"));
          ("level", VStr (levelname record));
          ("logger", VStr (name record));
          ("message", VStr message);
          ("module", VStr (module record));
          ("function", VStr (funcName record));
          ("line", VInt (lineno record)) ] in
      let log_data :=
        match request_id_var w with
        | Some request_id =>
            if str_truthy request_id
            then dict_set "request_id" (VStr request_id) log_data
            else log_data
        | None => log_data
        end in
      let with_extra (log_data : dict) : dict :=
        match extra_fields record with
        | Some fields => dict_update log_data fields
        | None => log_data
        end in
      match exc_info record with
      | None => Ok (with_extra log_data)
      | Some None =>
          Raise (AttributeError "'NoneType' object has no attribute '__name__'")
      | Some (Some e) =>
          Ok (with_extra
                (dict_set "exception"
                   (VDict [ ("type", VStr (exc_type e));
                            ("message", VStr (exc_text e));
                            ("traceback", VStr (format_exception e)) ])
                   log_data))
      end
  end.

Definition format (w : World) (record : LogRecord) : result string :=
  match log_data w record with
  | Ok d => Json.dumps (python w) Json.default_options (VDict d)
  | Raise e => Raise e
  end.
End JSONFormatter.

Definition level_of_name (s : string) : option Z :=
  if String.eqb s "DEBUG" then Some 10
  else if String.eqb s "INFO" then Some 20
  else if String.eqb s "WARNING" then Some 30
  else if String.eqb s "WARN" then Some 30
  else if String.eqb s "ERROR" then Some 40
  else if String.eqb s "CRITICAL" then Some 50
  else if String.eqb s "FATAL" then Some 50
  else if String.eqb s "NOTSET" then Some 0
  else None.

(** [setup_logger(name, level)]: the configured logger. *)
Definition setup_logger (name : option string) (level : option string) : result Logger :=
  let name := match name with Some n => n | None => "geo-analytics-api" end in
  let level := match level with Some l => l | None => "INFO" end in
  match level_of_name (upper level) with
  | Some n => Ok (mkLogger name n)
  | None =>
      Raise (AttributeError
               ("module 'logging' has no attribute '" ++ upper level ++ "'"))
  end.

(** [default_logger = setup_logger()] *)
Definition default_logger : result Logger := setup_logger None None.

Module LoggerAdapter.
Record t : Type := mk {
  logger : Logger;
  extra : dict
}.

(** [process] fills in [extra] and [extra_fields] where the call left
    them out, then updates the extra fields with [self.extra]. (The
    update is made in place, on the dict the caller passed.) The test
    ['extra_fields' not in kwargs['extra']] raises on [extra=None]. *)
Definition process (self : t) (msg : string) (kwargs : LogKwargs)
    : result (string * LogKwargs) :=
  match kw_extra kwargs with
  | ExtraNone => Raise (TypeError "argument of type 'NoneType' is not iterable")
  | ExtraAbsent | ExtraMapping None =>
      Ok (msg, mkKwargs (ExtraMapping (Some (dict_update [] (extra self))))
                        (kw_exc_info kwargs))
  | ExtraMapping (Some fields) =>
      Ok (msg, mkKwargs (ExtraMapping (Some (dict_update fields (extra self))))
                        (kw_exc_info kwargs))
  end.

(** [LoggerAdapter.log], inherited from [logging.LoggerAdapter]. *)
Definition log (w : World) (self : t) (l : Level) (site : CallSite)
    (msg : string) (args : list pyval) (kwargs : LogKwargs) : IO unit :=
  if isEnabledFor (logger self) l then
    match process self msg kwargs with
    | Raise e => raise e
    | Ok (msg, kwargs) => Logging.log w (logger self) l site msg args kwargs
    end
  else ret tt.
End LoggerAdapter.

(** The fields a log call passes as [extra={'extra_fields': ...}]. *)
Definition call_site_fields (kwargs : LogKwargs) : dict :=
  match kw_extra kwargs with
  | ExtraMapping (Some fields) => fields
  | _ => []
  end.

(** The entries [format] writes before the correlation id, the
    exception and the extra fields, for a record whose message reads
    [message]. *)
Definition record_entries (w : World) (record : LogRecord) (message : string)
    : dict :=
  [ ("timestamp", VStr (utcnow w ++ "Z"));
    ("level", VStr (levelname record));
    ("logger", VStr (name record));
    ("message", VStr message);
    ("module", VStr (module record));
    ("function", VStr (funcName record));
    ("line", VInt (lineno record)) ].

(** The same record without the attribute [extra_fields]. *)
Definition without_extra_fields (r : LogRecord) : LogRecord :=
  mkRecord (levelname r) (levelno r) (name r) (msg r) (args r) (module r)
    (funcName r) (lineno r) (exc_info r) None.

Definition get_logger (w : World) (name : option string) (extra_context : dict)
    : LoggerAdapter.t :=
  let name := match name with Some n => n | None => "geo-analytics-api" end in
  LoggerAdapter.mk (getLogger w name) extra_context.

(** [round(x, 2)] on the rationals: to the nearest hundredth, a tie to
    the even one. *)
Definition round2 (x : Q) : Q :=
  let y := (x * 100)%Q in
  let f := Qfloor y in
  let r := (y - inject_Z f)%Q in
  let n := match (r ?= 1 # 2)%Q with
           | Lt => f
           | Gt => f + 1
           | Eq => if Z.even f then f else f + 1
           end in
  (n # 100)%Q.

Module PerformanceLogger.
Record t : Type := mk {
  logger : Logger;
  operation : string;
  context : dict;
  start_time : option Q
}.

Definition __init__ (logger : Logger) (operation : string) (context : dict) : t :=
  mk logger operation context None.

Definition __enter__ (w : World) (self : t) : IO t :=
  (let self := mk (logger self) (operation self) (context self)
                  (Some (time_time w)) in
   Logging.log w (logger self) INFO (mkSite "logger" "__enter__" 124)
     ("Starting: " ++ operation self) []
     (mkKwargs (ExtraMapping (Some (context self))) ExcNone) ;;;
   ret self)%io.

(** [__exit__(exc_type, exc_val, exc_tb)]; [exc] is [None] on a normal
    exit. The result is what [__exit__] returns. *)
Definition __exit__ (w : World) (self : t) (exc : option PyExc) : IO bool :=
  match start_time self with
  | None =>
      raise (TypeError
               "unsupported operand type(s) for -: 'float' and 'NoneType'")
  | Some start =>
      (let duration := (time_time w - start)%Q in
       let log_data :=
         dict_set "success"
           (VBool (match exc with None => true | Some _ => false end))
           (dict_set "duration_ms" (VFloat (round2 (duration * 1000)%Q))
              (dict_update [] (context self))) in
       match exc with
       | Some e =>
           Logging.log w (logger self) ERROR (mkSite "logger" "__exit__" 136)
             ("Failed: " ++ operation self) []
             (mkKwargs (ExtraMapping (Some log_data)) (ExcTuple e))
       | None =>
           Logging.log w (logger self) INFO (mkSite "logger" "__exit__" 142)
             ("Completed: " ++ operation self) []
             (mkKwargs (ExtraMapping (Some log_data)) ExcNone)
       end ;;;
       ret false)%io
  end.

(** [with PerformanceLogger(...) as scope: body]. [w_enter] and
    [w_exit] are the surroundings at entry and at exit. *)
Definition with_ (w_enter w_exit : World) (self : t) (body : t -> IO unit)
    : IO unit :=
  fun out =>
    match __enter__ w_enter self out with
    | (Raise e, out1) => (Raise e, out1)
    | (Ok scope, out1) =>
        match body scope out1 with
        | (Ok tt, out2) =>
            match __exit__ w_exit scope None out2 with
            | (Ok _, out3) => (Ok tt, out3)
            | (Raise e, out3) => (Raise e, out3)
            end
        | (Raise e, out2) =>
            match __exit__ w_exit scope (Some e) out2 with
            | (Ok suppress, out3) =>
                if suppress then (Ok tt, out3) else (Raise e, out3)
            | (Raise e', out3) => (Raise e', out3)
            end
        end
    end.
End PerformanceLogger.

End Logger.

(* ===================================================================== *)
(** * [middleware/error_handler.py] *)
(* ===================================================================== *)

Module ErrorHandler.

Definition HTTP_400_BAD_REQUEST : Z := 400.
Definition HTTP_404_NOT_FOUND : Z := 404.
Definition HTTP_422_UNPROCESSABLE_ENTITY : Z := 422.
Definition HTTP_429_TOO_MANY_REQUESTS : Z := 429.
Definition HTTP_500_INTERNAL_SERVER_ERROR : Z := 500.

(** The classes of the taxonomy. *)
Inductive ExceptionClass : Type :=
| Base
| DatasetNotFound
| InvalidDataFormat
| AnalyticsProcessing
| RateLimitExceeded.

Module GeoAnalyticsAPIException.
Record t : Type := mk {
  class : ExceptionClass;
  message : string;
  status_code : Z;
  error_code : string;
  details : dict
}.

(** [__init__(message, status_code=500, error_code=None, details=None)] *)
Definition __init__ (class : ExceptionClass) (message : string)
    (status_code : option Z) (error_code : option string)
    (details : option dict) : t :=
  {| class := class;
     message := message;
     status_code := match status_code with
                    | Some c => c
                    | None => HTTP_500_INTERNAL_SERVER_ERROR
                    end;
     error_code := match error_code with
                   | Some c => if str_truthy c then c else "INTERNAL_ERROR"
                   | None => "INTERNAL_ERROR"
                   end;
     details := match details with
                | Some d => if dict_truthy d then d else []
                | None => []
                end |}.
End GeoAnalyticsAPIException.
Import GeoAnalyticsAPIException.

(** A call [f(named..., **kwargs)] fails when a key of [kwargs] is one of
    the named parameters. *)
Definition bind_kwargs (params : list string) (kwargs : dict) : result unit :=
  match find (fun p => dict_mem p kwargs) params with
  | Some p =>
      Raise (TypeError
               ("__init__() got multiple values for argument '" ++ p ++ "'"))
  | None => Ok tt
  end.

Definition DatasetNotFoundException (dataset_id : string) (kwargs : dict)
    : result GeoAnalyticsAPIException.t :=
  match bind_kwargs ["self"; "dataset_id"] kwargs with
  | Raise e => Raise e
  | Ok _ =>
      Ok (__init__ DatasetNotFound
            ("Dataset '" ++ dataset_id ++ "' not found")
            (Some HTTP_404_NOT_FOUND)
            (Some "DATASET_NOT_FOUND")
            (Some (dict_update [("dataset_id", VStr dataset_id)] kwargs)))
  end.

Definition InvalidDataFormatException (reason : string) (kwargs : dict)
    : result GeoAnalyticsAPIException.t :=
  match bind_kwargs ["self"; "reason"] kwargs with
  | Raise e => Raise e
  | Ok _ =>
      Ok (__init__ InvalidDataFormat
            ("Invalid data format: " ++ reason)
            (Some HTTP_400_BAD_REQUEST)
            (Some "INVALID_DATA_FORMAT")
            (Some (dict_update [("reason", VStr reason)] kwargs)))
  end.

Definition AnalyticsProcessingException (operation reason : string)
    (kwargs : dict) : result GeoAnalyticsAPIException.t :=
  match bind_kwargs ["self"; "operation"; "reason"] kwargs with
  | Raise e => Raise e
  | Ok _ =>
      Ok (__init__ AnalyticsProcessing
            ("Analytics processing failed: " ++ reason)
            (Some HTTP_500_INTERNAL_SERVER_ERROR)
            (Some "ANALYTICS_PROCESSING_ERROR")
            (Some (dict_update
                     [("operation", VStr operation); ("reason", VStr reason)]
                     kwargs)))
  end.

(** [retry_after] is [None] when the caller leaves it to its default. *)
Definition RateLimitExceededException (retry_after : option Z) (kwargs : dict)
    : result GeoAnalyticsAPIException.t :=
  let retry_after := match retry_after with Some n => n | None => 60 end in
  match bind_kwargs ["self"; "retry_after"] kwargs with
  | Raise e => Raise e
  | Ok _ =>
      Ok (__init__ RateLimitExceeded
            "Rate limit exceeded. Please try again later."
            (Some HTTP_429_TOO_MANY_REQUESTS)
            (Some "RATE_LIMIT_EXCEEDED")
            (Some (dict_update
                     [("retry_after_seconds", VInt retry_after)] kwargs)))
  end.

(** [build_error_response]; the clock is read from [w]. *)
Definition build_error_response (w : World) (error_id : string)
    (status_code : Z) (error_code : string) (message : string)
    (details : option dict) (include_traceback : bool)
    (traceback_str : option string) : pyval :=
  let error : dict :=
    [ ("id", VStr error_id);
      ("timestamp", VStr (utcnow w ++ "Z"));
      ("status_code", VInt status_code);
      ("error_code", VStr error_code);
      ("message", VStr message) ] in
  let error :=
    match details with
    | Some d => if dict_truthy d then dict_set "details" (VDict d) error else error
    | None => error
    end in
  let error :=
    match traceback_str with
    | Some tb =>
        if include_traceback && str_truthy tb
        then dict_set "traceback" (VStr tb) error
        else error
    | None => error
    end in
  VDict [("error", VDict error)].

(** Starlette's [JSONResponse]. The constructor renders the content at
    once, with [json.dumps(content, ensure_ascii=False, allow_nan=False,
    indent=None, separators=(",", ":"))], and so raises on a content that
    cannot be encoded. [body] is the text rendered, which the response
    then carries encoded as UTF-8; [content] is kept beside it. *)
Module JSONResponse.
Record t : Type := mk {
  status_code : Z;
  content : pyval;
  body : string
}.

Definition render_options : Json.Options :=
  Json.mkOptions false false "," ":".

Definition render (py : Interpreter) (content : pyval) : result string :=
  Json.dumps py render_options content.

(** [JSONResponse(status_code=..., content=...)] *)
Definition __init__ (py : Interpreter) (status_code : Z) (content : pyval)
    : result t :=
  match render py content with
  | Raise e => Raise e
  | Ok body => Ok (mk status_code content body)
  end.
End JSONResponse.

Module Request.
Record t : Type := mk {
  url : string;
  method : string
}.
End Request.

(** [from utils.logger import get_logger] *)
Definition import_get_logger (w : World) : IO unit :=
  if logger_importable w
  then ret tt
  else raise (ModuleNotFoundError "No module named 'utils'").

Definition custom_exception_handler (w : World) (request : Request.t)
    (exc : GeoAnalyticsAPIException.t) : IO JSONResponse.t :=
  (let error_id := uuid4 w in
   try_except
     (import_get_logger w ;;;
      let logger := Logger.get_logger w None [] in
      Logger.LoggerAdapter.log w logger ERROR
        (mkSite "error_handler" "custom_exception_handler" 126)
        ("API Error: " ++ error_code exc) []
        (mkKwargs
           (ExtraMapping
              (Some [ ("error_id", VStr error_id);
                      ("error_code", VStr (error_code exc));
                      ("message", VStr (message exc));
                      ("details", VDict (details exc));
                      ("path", VStr (Request.url request));
                      ("method", VStr (Request.method request)) ]))
           ExcTrue))
     ImportError_classes
     (ret tt) ;;;
   lift (JSONResponse.__init__ (python w) (status_code exc)
           (build_error_response w error_id (status_code exc) (error_code exc)
              (message exc) (Some (details exc)) false None)))%io.

(** A [RequestValidationError]: [errors] is what [exc.errors()] returns. *)
Module RequestValidationError.
Record t : Type := mk { errors : list pyval }.
End RequestValidationError.

Definition validation_exception_handler (w : World) (request : Request.t)
    (exc : RequestValidationError.t) : IO JSONResponse.t :=
  let error_id := uuid4 w in
  lift (JSONResponse.__init__ (python w) HTTP_422_UNPROCESSABLE_ENTITY
          (build_error_response w error_id HTTP_422_UNPROCESSABLE_ENTITY
             "VALIDATION_ERROR" "Request validation failed"
             (Some [("validation_errors",
                     VList (RequestValidationError.errors exc))])
             false None)).

Module StarletteHTTPException.
Record t : Type := mk { status_code : Z; detail : string }.
End StarletteHTTPException.

Definition http_exception_handler (w : World) (request : Request.t)
    (exc : StarletteHTTPException.t) : IO JSONResponse.t :=
  let error_id := uuid4 w in
  lift (JSONResponse.__init__ (python w)
          (StarletteHTTPException.status_code exc)
          (build_error_response w error_id
             (StarletteHTTPException.status_code exc)
             "HTTP_ERROR" (StarletteHTTPException.detail exc)
             None false None)).

(** [os.getenv("DEBUG", "false").lower() == "true"] *)
Definition debug_enabled (w : World) : bool :=
  String.eqb
    (lower (match environ_DEBUG w with Some v => v | None => "false" end))
    "true".

Definition general_exception_handler (w : World) (request : Request.t)
    (exc : PyExc) : IO JSONResponse.t :=
  (let error_id := uuid4 w in
   let traceback_str := format_exc (sys_exc_info w) in
   try_except
     (import_get_logger w ;;;
      let logger := Logger.get_logger w None [] in
      Logger.LoggerAdapter.log w logger CRITICAL
        (mkSite "error_handler" "general_exception_handler" 207)
        ("Unhandled exception: " ++ exc_type exc) []
        (mkKwargs
           (ExtraMapping
              (Some [ ("error_id", VStr error_id);
                      ("exception_type", VStr (exc_type exc));
                      ("exception_message", VStr (exc_text exc));
                      ("path", VStr (Request.url request));
                      ("method", VStr (Request.method request)) ]))
           ExcTrue))
     ImportError_classes
     (print ("CRITICAL ERROR [" ++ error_id ++ "]: " ++ exc_text exc
             ++ nl ++ traceback_str)) ;;;
   let include_traceback := debug_enabled w in
   lift (JSONResponse.__init__ (python w) HTTP_500_INTERNAL_SERVER_ERROR
           (build_error_response w error_id HTTP_500_INTERNAL_SERVER_ERROR
              "INTERNAL_SERVER_ERROR"
              "An unexpected error occurred. Please contact support with the error ID."%string
              (Some [("error_id", VStr error_id)])
              include_traceback
              (if include_traceback then Some traceback_str else None))))%io.

(** The field [k] of the [error] object of a response body. *)
Definition error_field (k : string) (content : pyval) : option pyval :=
  match content with
  | VDict top =>
      match dict_get "error" top with
      | Some (VDict error) => dict_get k error
      | _ => None
      end
  | _ => None
  end.

(** The way a variant of the taxonomy is constructed. *)
Inductive DomainCall : Type :=
| NewDatasetNotFound (dataset_id : string)
| NewInvalidDataFormat (reason : string)
| NewAnalyticsProcessing (operation reason : string)
| NewRateLimitExceeded (retry_after : option Z).

Definition construct (c : DomainCall) (kwargs : dict)
    : result GeoAnalyticsAPIException.t :=
  match c with
  | NewDatasetNotFound dataset_id => DatasetNotFoundException dataset_id kwargs
  | NewInvalidDataFormat reason => InvalidDataFormatException reason kwargs
  | NewAnalyticsProcessing operation reason =>
      AnalyticsProcessingException operation reason kwargs
  | NewRateLimitExceeded retry_after => RateLimitExceededException retry_after kwargs
  end.

(** The parameters a keyword may not repeat. *)
Definition named_params (c : DomainCall) : list string :=
  match c with
  | NewDatasetNotFound _ => ["self"; "dataset_id"]
  | NewInvalidDataFormat _ => ["self"; "reason"]
  | NewAnalyticsProcessing _ _ => ["self"; "operation"; "reason"]
  | NewRateLimitExceeded _ => ["self"; "retry_after"]
  end.

Definition kwargs_fresh (c : DomainCall) (kwargs : dict) : bool :=
  forallb (fun p => negb (dict_mem p kwargs)) (named_params c).

(** The table of the specification: status, code and the arguments as
    named fields. *)
Definition documented_status (c : DomainCall) : Z :=
  match c with
  | NewDatasetNotFound _ => 404
  | NewInvalidDataFormat _ => 400
  | NewAnalyticsProcessing _ _ => 500
  | NewRateLimitExceeded _ => 429
  end.

Definition documented_code (c : DomainCall) : string :=
  match c with
  | NewDatasetNotFound _ => "DATASET_NOT_FOUND"
  | NewInvalidDataFormat _ => "INVALID_DATA_FORMAT"
  | NewAnalyticsProcessing _ _ => "ANALYTICS_PROCESSING_ERROR"
  | NewRateLimitExceeded _ => "RATE_LIMIT_EXCEEDED"
  end.

Definition documented_fields (c : DomainCall) : dict :=
  match c with
  | NewDatasetNotFound dataset_id => [("dataset_id", VStr dataset_id)]
  | NewInvalidDataFormat reason => [("reason", VStr reason)]
  | NewAnalyticsProcessing operation reason =>
      [("operation", VStr operation); ("reason", VStr reason)]
  | NewRateLimitExceeded (Some n) => [("retry_after_seconds", VInt n)]
  | NewRateLimitExceeded None => [("retry_after_seconds", VInt 60)]
  end.

(** The same surroundings with the logger module present or missing. *)
Definition set_logger_importable (b : bool) (w : World) : World :=
  mkWorld (uuid4 w) (utcnow w) (time_time w) (request_id_var w)
    (sys_exc_info w) (environ_DEBUG w) b (getLogger w) (python w).

(** The body of a response without the time it was built at. *)
Definition without_timestamp (content : pyval) : pyval :=
  match content with
  | VDict [(k, VDict error)] => VDict [(k, VDict (dict_remove "timestamp" error))]
  | other => other
  end.

(** The message of the unclassified handler as the specification words
    it. *)
Definition spec_generic_message : string :=
  "An unexpected error occurred; contact support with the error id".

(** The message of the unclassified handler in the code. *)
Definition generic_message : string :=
  "An unexpected error occurred. Please contact support with the error ID.".

(** The content the domain handler builds. *)
Definition custom_content (w : World) (exc : GeoAnalyticsAPIException.t)
    : pyval :=
  build_error_response w (uuid4 w) (status_code exc) (error_code exc)
    (message exc) (Some (details exc)) false None.

(** The content the validation handler builds. *)
Definition validation_content (w : World) (exc : RequestValidationError.t)
    : pyval :=
  build_error_response w (uuid4 w) 422 "VALIDATION_ERROR"
    "Request validation failed"
    (Some [("validation_errors", VList (RequestValidationError.errors exc))])
    false None.

(** The content the HTTP handler builds. *)
Definition http_content (w : World) (exc : StarletteHTTPException.t) : pyval :=
  build_error_response w (uuid4 w) (StarletteHTTPException.status_code exc)
    "HTTP_ERROR" (StarletteHTTPException.detail exc) None false None.

(** The content the catch-all handler builds. *)
Definition general_content (w : World) : pyval :=
  build_error_response w (uuid4 w) 500 "INTERNAL_SERVER_ERROR"
    generic_message (Some [("error_id", VStr (uuid4 w))])
    (debug_enabled w)
    (if debug_enabled w then Some (format_exc (sys_exc_info w)) else None).

(** The same surroundings while another exception, or none, is being
    handled. *)
Definition set_sys_exc_info (active : option PyExc) (w : World) : World :=
  mkWorld (uuid4 w) (utcnow w) (time_time w) (request_id_var w)
    active (environ_DEBUG w) (logger_importable w) (getLogger w) (python w).

(** The same surroundings with another value of [DEBUG]. *)
Definition set_environ_DEBUG (v : option string) (w : World) : World :=
  mkWorld (uuid4 w) (utcnow w) (time_time w) (request_id_var w)
    (sys_exc_info w) v (logger_importable w) (getLogger w) (python w).

(** The logger the handlers log through. *)
Definition app_logger (w : World) : Logger := getLogger w "geo-analytics-api".

(** The record the domain handler logs. *)
Definition custom_log_record (w : World) (request : Request.t)
    (exc : GeoAnalyticsAPIException.t) : LogRecord :=
  makeRecord w (app_logger w) ERROR
    (mkSite "error_handler" "custom_exception_handler" 126)
    ("API Error: " ++ error_code exc) []
    (mkKwargs
       (ExtraMapping
          (Some [ ("error_id", VStr (uuid4 w));
                  ("error_code", VStr (error_code exc));
                  ("message", VStr (message exc));
                  ("details", VDict (details exc));
                  ("path", VStr (Request.url request));
                  ("method", VStr (Request.method request)) ]))
       ExcTrue).

(** The record the catch-all handler logs. *)
Definition general_log_record (w : World) (request : Request.t)
    (exc : PyExc) : LogRecord :=
  makeRecord w (app_logger w) CRITICAL
    (mkSite "error_handler" "general_exception_handler" 207)
    ("Unhandled exception: " ++ exc_type exc) []
    (mkKwargs
       (ExtraMapping
          (Some [ ("error_id", VStr (uuid4 w));
                  ("exception_type", VStr (exc_type exc));
                  ("exception_message", VStr (exc_text exc));
                  ("path", VStr (Request.url request));
                  ("method", VStr (Request.method request)) ]))
       ExcTrue).

(** The line the catch-all handler prints when it cannot log. *)
Definition fallback_line (w : World) (exc : PyExc) : string :=
  "CRITICAL ERROR [" ++ uuid4 w ++ "]: " ++ exc_text exc ++ nl
  ++ format_exc (sys_exc_info w).

End ErrorHandler.

(* ===================================================================== *)
(** * Sample inputs *)
(* ===================================================================== *)

Module Examples.

(** The state after [utils.logger] was imported: the application logger
    is the one [setup_logger()] configured, at level [INFO]. *)
Definition default_getLogger (name : string) : Logger :=
  if String.eqb name "geo-analytics-api" then mkLogger name 20 else mkLogger name 0.

(** A float printer for the samples: the integer part, then [.0]. *)
Definition sample_float_repr (q : Q) : string :=
  (Json.str_of_int (Qfloor q) ++ ".0")%string.

(** [%] for the samples: the conversions [%s] of a text, an integer, a
    boolean or [None], [%d] of an integer, and [%%], with the errors of
    CPython for a missing or a spare argument and for [%d] of a text.
    The samples use no other conversion. *)
Fixpoint sample_str_mod (m : string) (args : list pyval) : result string :=
  match m with
  | EmptyString =>
      match args with
      | [] => Ok EmptyString
      | _ :: _ =>
          Raise (TypeError "not all arguments converted during string formatting")
      end
  | String "%" (String "%" rest) =>
      match sample_str_mod rest args with
      | Ok t => Ok (String "%" t)
      | Raise e => Raise e
      end
  | String "%" (String c rest) =>
      match args with
      | [] => Raise (TypeError "not enough arguments for format string")
      | a :: args =>
          let piece : result string :=
            match c, a with
            | "s"%char, VStr s => Ok s
            | "s"%char, VInt z => Ok (Json.str_of_int z)
            | "s"%char, VBool true => Ok "True"
            | "s"%char, VBool false => Ok "False"
            | "s"%char, VNone => Ok "None"
            | "d"%char, VInt z => Ok (Json.str_of_int z)
            | "d"%char, VStr _ =>
                Raise (TypeError "%d format: a real number is required, not str")
            | _, _ => Raise (ValueError "conversion outside of the samples")
            end in
          match piece with
          | Raise e => Raise e
          | Ok p =>
              match sample_str_mod rest args with
              | Ok t => Ok (p ++ t)
              | Raise e => Raise e
              end
          end
      end
  | String c rest =>
      match sample_str_mod rest args with
      | Ok t => Ok (String c t)
      | Raise e => Raise e
      end
  end.

(** CPython 3.11 and later with its default limit of 4300 digits. *)
Definition sample_python : Interpreter :=
  mkInterpreter sample_float_repr sample_str_mod (Some 3660%nat).

Definition world0 : World :=
  {| uuid4 := "3f2b8c1e-5d4a-4e6f-9a7b-0c1d2e3f4a5b";
     utcnow := "2024-05-01T12:00:00.000000";
     time_time := 1714564800 # 1;
     request_id_var := None;
     sys_exc_info := Some (mkExc "KeyError" "'region'" EmptyString);
     environ_DEBUG := None;
     logger_importable := true;
     getLogger := default_getLogger;
     python := sample_python |}.

Definition request0 : ErrorHandler.Request.t :=
  ErrorHandler.Request.mk "http://testserver/api/regions" "GET".

Definition key_error : PyExc := mkExc "KeyError" "'region'" EmptyString.

(** The surroundings at a later and at an earlier clock reading. *)
Definition at_time (t : Q) (w : World) : World :=
  mkWorld (uuid4 w) (utcnow w) t (request_id_var w) (sys_exc_info w)
    (environ_DEBUG w) (logger_importable w) (getLogger w) (python w).

Definition with_request_id (rid : option string) (w : World) : World :=
  mkWorld (uuid4 w) (utcnow w) (time_time w) rid (sys_exc_info w)
    (environ_DEBUG w) (logger_importable w) (getLogger w) (python w).

(** An operation that fails with [key_error] without logging. *)
Definition failing_body (_ : Logger.PerformanceLogger.t) : IO unit :=
  raise key_error.

(** The surroundings outside of any [except] block. *)
Definition idle_world : World :=
  mkWorld (uuid4 world0) (utcnow world0) (time_time world0)
    (request_id_var world0) None (environ_DEBUG world0)
    (logger_importable world0) (getLogger world0) (python world0).

(** The record of [logger.error("load failed", exc_info=True)]. *)
Definition error_record (w : World) : LogRecord :=
  makeRecord w (mkLogger "geo-analytics-api" 20) ERROR
    (mkSite "routes" "get_regions" 7) "load failed" []
    (mkKwargs ExtraAbsent ExcTrue).

(** The record of [logger.info("regions listed")], with or without the
    attribute [extra_fields]. *)
Definition info_record (fields : option dict) : LogRecord :=
  mkRecord "INFO" 20 "geo-analytics-api" "regions listed" [] "routes"
    "get_regions" 7 None fields.

(** The record of [logger.info("%d regions", n)]. *)
Definition count_record (n : pyval) : LogRecord :=
  mkRecord "INFO" 20 "geo-analytics-api" "%d regions" [n] "routes"
    "get_regions" 7 None None.

(** An operation that logs one record and returns. *)
Definition logging_body (scope : Logger.PerformanceLogger.t) : IO unit :=
  Logging.log world0 (Logger.PerformanceLogger.logger scope) INFO
    (mkSite "routes" "get_regions" 7) "regions listed" []
    (mkKwargs ExtraAbsent ExcNone).

End Examples.


(* ===================================================================== *)
(** * Properties *)
(* ===================================================================== *)

(** ** Dicts *)

Module DictFacts.
Section Facts.
Context {V : Type}.
Implicit Types (d o : list (string * V)) (k : string) (v : V).

Lemma dict_get_set k k' v d :
  dict_get k' (dict_set k v d)
  = if String.eqb k' k then Some v else dict_get k' d.
Proof.
  induction d as [|[k0 v0] r IH]; simpl.
  - destruct (String.eqb k' k); reflexivity.
  - destruct (String.eqb k k0) eqn:E; simpl.
    + apply String.eqb_eq in E; subst k0.
      destruct (String.eqb k' k); reflexivity.
    + rewrite IH.
      destruct (String.eqb k' k0) eqn:E0; [|reflexivity].
      destruct (String.eqb k' k) eqn:E1; [|reflexivity].
      apply String.eqb_eq in E0, E1; subst.
      rewrite String.eqb_refl in E; discriminate.
Qed.

Lemma dict_mem_set k k' v d :
  dict_mem k' (dict_set k v d)
  = if String.eqb k' k then true else dict_mem k' d.
Proof.
  unfold dict_mem; rewrite dict_get_set.
  destruct (String.eqb k' k); reflexivity.
Qed.

Lemma dict_update_cons d k v o :
  dict_update d ((k, v) :: o) = dict_update (dict_set k v d) o.
Proof. reflexivity. Qed.

Lemma dict_mem_cons_false k k0 v0 o :
  dict_mem k ((k0, v0) :: o) = false ->
  String.eqb k k0 = false /\ dict_mem k o = false.
Proof.
  unfold dict_mem; simpl.
  destruct (String.eqb k k0); [discriminate|]; auto.
Qed.

(** A key [other] does not hold is untouched by [update]. *)
Lemma dict_get_update_absent k o : forall d,
  dict_mem k o = false -> dict_get k (dict_update d o) = dict_get k d.
Proof.
  induction o as [|[k0 v0] r IH]; intros d H; [reflexivity|].
  apply dict_mem_cons_false in H as [E H].
  rewrite dict_update_cons, IH, dict_get_set, E by assumption.
  reflexivity.
Qed.

(** [update]: the value of [other] wins, the rest is kept. *)
Lemma dict_get_update k o : forall d,
  dict_wf o = true ->
  dict_get k (dict_update d o)
  = match dict_get k o with Some v => Some v | None => dict_get k d end.
Proof.
  induction o as [|[k0 v0] r IH]; intros d W; [reflexivity|].
  simpl in W; apply andb_true_iff in W as [F W].
  apply negb_true_iff in F.
  rewrite dict_update_cons; simpl.
  destruct (String.eqb k k0) eqn:E.
  - apply String.eqb_eq in E; subst k0.
    rewrite dict_get_update_absent, dict_get_set, String.eqb_refl by assumption.
    reflexivity.
  - rewrite IH, dict_get_set, E by assumption. reflexivity.
Qed.

Lemma dict_truthy_set k v d : dict_truthy (dict_set k v d) = true.
Proof.
  destruct d as [|[k0 v0] r]; simpl; [reflexivity|].
  destruct (String.eqb k k0); reflexivity.
Qed.

Lemma dict_truthy_update o : forall d,
  dict_truthy d = true -> dict_truthy (dict_update d o) = true.
Proof.
  induction o as [|[k0 v0] r IH]; intros d H; [assumption|].
  rewrite dict_update_cons. apply IH, dict_truthy_set.
Qed.

Lemma dict_wf_set k v d : dict_wf d = true -> dict_wf (dict_set k v d) = true.
Proof.
  induction d as [|[k0 v0] r IH]; intros W; [reflexivity|].
  simpl in *. apply andb_true_iff in W as [F W].
  destruct (String.eqb k k0) eqn:E; simpl.
  - rewrite F, W; reflexivity.
  - rewrite dict_mem_set, IH by assumption.
    replace (String.eqb k0 k) with false
      by (symmetry; rewrite String.eqb_sym; exact E).
    rewrite F; reflexivity.
Qed.

Lemma dict_wf_update o : forall d,
  dict_wf d = true -> dict_wf (dict_update d o) = true.
Proof.
  induction o as [|[k0 v0] r IH]; intros d W; [assumption|].
  rewrite dict_update_cons. apply IH, dict_wf_set, W.
Qed.

Lemma dict_mem_get k d v : dict_get k d = Some v -> dict_mem k d = true.
Proof. unfold dict_mem; intros ->; reflexivity. Qed.
End Facts.
End DictFacts.
Import DictFacts.

(** ** The error response builder *)

Module BuilderFacts.
Import ErrorHandler.

Ltac builder_cases details include_traceback traceback_str :=
  destruct details as [[|[? ?] ?]|];
  destruct include_traceback;
  destruct traceback_str as [[|? ?]|].

(** C3, as amended. The body is [{error: {...}}]; the object starts with
    [id], [timestamp], [status_code], [error_code] and [message], holding
    the inputs; it has no key beyond these, [details] and [traceback];
    [details] is there exactly for a non-empty details map, [traceback]
    exactly when [include_traceback] is true and the traceback text is
    given and not empty. *)
Theorem C3_builder_shape (w : World) (error_id : string) (status_code : Z)
    (error_code message : string) (details : option dict)
    (include_traceback : bool) (traceback_str : option string) :
  exists error : dict,
    build_error_response w error_id status_code error_code message details
      include_traceback traceback_str = VDict [("error", VDict error)]
    /\ firstn 5 error
       = [ ("id", VStr error_id);
           ("timestamp", VStr (utcnow w ++ "Z"));
           ("status_code", VInt status_code);
           ("error_code", VStr error_code);
           ("message", VStr message) ]
    /\ (forall k, In k (dict_keys (skipn 5 error)) ->
                  k = "details" \/ k = "traceback")
    /\ dict_wf error = true
    /\ (dict_mem "details" error = true
        <-> exists d, details = Some d /\ d <> [])
    /\ (forall d, details = Some d -> d <> [] ->
                  dict_get "details" error = Some (VDict d))
    /\ (dict_mem "traceback" error = true
        <-> include_traceback = true
            /\ exists tb, traceback_str = Some tb /\ tb <> EmptyString)
    /\ (forall tb, include_traceback = true -> traceback_str = Some tb ->
                   tb <> EmptyString ->
                   dict_get "traceback" error = Some (VStr tb)).
Proof.
  builder_cases details include_traceback traceback_str;
    (eexists; split; [reflexivity|]);
    (split; [reflexivity|]);
    (split; [simpl; intuition|]);
    (split; [reflexivity|]);
    simpl;
    repeat match goal with
    | |- _ /\ _ => split
    | |- _ <-> _ => split
    end;
    try (intros; reflexivity).
  all: try (intros H; discriminate H).
  all: try (intros [d [E N]]; first [discriminate E | injection E as <-; congruence]).
  all: try (intros d E N; first [discriminate E | injection E as <-; first [congruence|reflexivity]]).
  all: try (intros [I [tb [E N]]]; first [discriminate I | discriminate E | injection E as <-; congruence]).
  all: try (intros tb I E N; first [discriminate I | discriminate E | injection E as <-; first [congruence|reflexivity]]).
  all: try (intros _; eexists; split; [reflexivity|discriminate]).
  all: try (intros _; split; [reflexivity|eexists; split; [reflexivity|discriminate]]).
Qed.

(** C3, as stated, fails on an empty traceback text: it is provided and
    [include_traceback] is true, and the body has no [traceback] key. *)
Lemma C3_empty_traceback_text :
  error_field "traceback"
    (build_error_response Examples.world0 "e-1" 500 "INTERNAL_SERVER_ERROR"
       "failed" None true (Some EmptyString)) = None
  /\ Some EmptyString <> (None : option string).
Proof. split; [reflexivity|discriminate]. Qed.

(** C9. Two calls on the same inputs build the same body once the
    timestamp is set aside, whatever the surroundings are; each call
    returns a body, whose timestamp is the clock reading of its call. *)
Theorem C9_builder_deterministic (w1 w2 : World) (error_id : string)
    (status_code : Z) (error_code message : string) (details : option dict)
    (include_traceback : bool) (traceback_str : option string) :
  without_timestamp
    (build_error_response w1 error_id status_code error_code message details
       include_traceback traceback_str)
  = without_timestamp
      (build_error_response w2 error_id status_code error_code message details
         include_traceback traceback_str)
  /\ error_field "timestamp"
       (build_error_response w1 error_id status_code error_code message details
          include_traceback traceback_str) = Some (VStr (utcnow w1 ++ "Z"))
  /\ error_field "timestamp"
       (build_error_response w2 error_id status_code error_code message details
          include_traceback traceback_str) = Some (VStr (utcnow w2 ++ "Z")).
Proof.
  builder_cases details include_traceback traceback_str;
    repeat split; reflexivity.
Qed.

End BuilderFacts.

(** ** The exception handlers *)
(** ** [json.dumps] writes JSON *)

Module JsonFacts.
Import Json.

Lemma str_app_assoc (a b c : string) : ((a ++ b) ++ c)%string = (a ++ (b ++ c))%string.
Proof. induction a as [|x a IH]; simpl; [reflexivity|]. rewrite IH; reflexivity. Qed.

Lemma str_app_nil_r (a : string) : (a ++ EmptyString)%string = a.
Proof. induction a as [|x a IH]; simpl; [reflexivity|]. rewrite IH; reflexivity. Qed.

(** *** Numbers *)

Lemma skip_digits_uint (d : Decimal.uint) (r : string) :
  skip_digits (NilEmpty.string_of_uint d ++ r) = skip_digits r.
Proof. induction d; simpl; auto. Qed.

Lemma nzhead_not_D0 (d d' : Decimal.uint) : Decimal.nzhead d <> Decimal.D0 d'.
Proof. induction d; simpl; try discriminate. exact IHd. Qed.

(** The decimal digits of a positive number start with a digit other
    than zero. *)
Lemma to_uint_head (p : positive) :
  match Pos.to_uint p with
  | Decimal.Nil | Decimal.D0 _ => False
  | _ => True
  end.
Proof.
  pose proof (DecimalPos.Unsigned.to_of (Pos.to_uint p)) as H.
  rewrite DecimalPos.Unsigned.of_to in H. simpl in H.
  pose proof (DecimalPos.Unsigned.to_uint_nonzero p) as Z.
  pose proof (DecimalPos.Unsigned.to_uint_nonnil p) as N.
  destruct (Pos.to_uint p) as [|u|u|u|u|u|u|u|u|u|u]; try exact I.
  - apply N; reflexivity.
  - rewrite DecimalFacts.unorm_D0 in H. unfold Decimal.unorm in H.
    destruct (Decimal.nzhead u) as [|u'|u'|u'|u'|u'|u'|u'|u'|u'|u'] eqn:E;
      try discriminate H.
    + apply Z. exact H.
    + exact (nzhead_not_D0 u u' E).
Qed.

(** After the digits of a positive number, the rest of a number is a
    fraction and an exponent. *)
Lemma uint_number (d : Decimal.uint) (r : string) :
  match d with
  | Decimal.Nil | Decimal.D0 _ => False
  | _ => True
  end ->
  starts_with_digit r = false ->
  number_int (NilEmpty.string_of_uint d ++ r) = number_frac r.
Proof.
  assert (K : starts_with_digit r = false -> skip_digits r = r).
  { destruct r as [|c r]; [reflexivity|]. simpl. intros ->. reflexivity. }
  destruct d as [|u|u|u|u|u|u|u|u|u|u]; intros H R; try contradiction H;
    simpl; unfold number_int; simpl; rewrite skip_digits_uint, K by exact R;
    reflexivity.
Qed.

Lemma str_of_int_tail (z : Z) (r : string) :
  starts_with_digit r = false -> number_frac r = true ->
  is_json_number (str_of_int z ++ r) = true.
Proof.
  intros R F. unfold str_of_int. destruct z as [|p|p]; simpl.
  - exact F.
  - pose proof (uint_number _ r (to_uint_head p) R) as H.
    pose proof (to_uint_head p) as T.
    destruct (Pos.to_uint p) as [|u|u|u|u|u|u|u|u|u|u]; try contradiction T;
      rewrite <- F; exact H.
  - rewrite <- F. exact (uint_number _ r (to_uint_head p) R).
Qed.

Lemma str_of_int_number (z : Z) : is_json_number (str_of_int z) = true.
Proof.
  rewrite <- (str_app_nil_r (str_of_int z)).
  apply str_of_int_tail; reflexivity.
Qed.

(** *** Strings *)

Lemma escape_char_body (c : ascii) (b s : string) :
  StrBody b s -> StrBody (escape_char c ++ b) (String c s).
Proof.
  intros H.
  destruct c as [[] [] [] [] [] [] [] []]; cbv;
    first
      [ apply SB_plain; [reflexivity | reflexivity | reflexivity | exact H]
      | apply SB_escape; [simpl; tauto | exact H]
      | apply SB_unicode; [reflexivity .. | exact H] ].
Qed.

Lemma escape_body_denotes (s : string) : StrBody (escape_body s) s.
Proof.
  induction s as [|c s IH]; simpl; [constructor|].
  apply escape_char_body, IH.
Qed.

Lemma escape_char_raw_body (c : ascii) (b s : string) :
  StrBody b s -> StrBody (escape_char_raw c ++ b) (String c s).
Proof.
  intros H.
  destruct c as [[] [] [] [] [] [] [] []]; cbv;
    first
      [ apply SB_plain; [reflexivity | reflexivity | reflexivity | exact H]
      | apply SB_escape; [simpl; tauto | exact H]
      | apply SB_unicode; [reflexivity .. | exact H] ].
Qed.

Lemma escape_body_raw_denotes (s : string) : StrBody (escape_body_raw s) s.
Proof.
  induction s as [|c s IH]; simpl; [constructor|].
  apply escape_char_raw_body, IH.
Qed.

(** Under either setting of [ensure_ascii] a text is written as a JSON
    string that denotes it. *)
Lemma encode_string_body (o : Options) (s : string) :
  exists b, encode_string o s = (dq ++ b ++ dq)%string /\ StrBody b s.
Proof.
  unfold encode_string. destruct (ensure_ascii o).
  - exists (escape_body s). split; [reflexivity|apply escape_body_denotes].
  - exists (escape_body_raw s). split; [reflexivity|apply escape_body_raw_denotes].
Qed.

(** *** Arrays and objects *)

Lemma result_all_Forall2 {A B C : Type} (f : A -> result B)
    (g : A -> option C) (R : B -> C -> Prop) (l : list A) :
  Forall (fun x => forall c, g x = Some c -> exists b, f x = Ok b /\ R b c) l ->
  forall cs, option_all g l = Some cs ->
             exists bs, result_all f l = Ok bs /\ Forall2 R bs cs.
Proof.
  induction 1 as [|x r Hx Hr IH]; intros cs E; simpl in E |- *.
  - injection E as <-. exists []. split; [reflexivity|constructor].
  - destruct (g x) as [c|] eqn:G; [|discriminate].
    destruct (option_all g r) as [cs'|]; [|discriminate].
    injection E as <-.
    destruct (Hx c eq_refl) as [b [Fb Rb]].
    destruct (IH cs' eq_refl) as [bs [Fbs Rbs]].
    rewrite Fb, Fbs. exists (b :: bs). split; [reflexivity|].
    constructor; assumption.
Qed.

Lemma join_cons (sep t t' : string) (ts : list string) :
  join sep (t :: t' :: ts) = (t ++ sep ++ join sep (t' :: ts))%string.
Proof. reflexivity. Qed.

(** The separators of the two callers: a comma and a colon, each
    followed by white space or by nothing. *)
Section Separators.
Variable o : Options.
Variables wi wk : string.
Hypothesis item_sep : item_separator o = ("," ++ wi)%string.
Hypothesis key_sep : key_separator o = (":" ++ wk)%string.
Hypothesis wi_ws : is_ws wi = true.
Hypothesis wk_ws : is_ws wk = true.

Lemma elements_join (ts : list string) (js : list json) :
  Forall2 Value ts js -> ts <> [] ->
  forall w, is_ws w = true -> Elements (w ++ join (item_separator o) ts) js.
Proof.
  induction 1 as [|t j ts js Ht Hr IH]; intros N w W; [contradiction N; reflexivity|].
  destruct ts as [|t' ts'].
  - inversion Hr; subst. simpl.
    rewrite <- (str_app_nil_r t) at 1.
    apply E_last; [exact W | reflexivity | exact Ht].
  - rewrite join_cons.
    replace (t ++ item_separator o ++ join (item_separator o) (t' :: ts'))%string
      with (t ++ EmptyString ++ "," ++ (wi ++ join (item_separator o) (t' :: ts')))%string
      by (rewrite item_sep at 2; reflexivity).
    apply E_more; [exact W | reflexivity | exact Ht |].
    apply IH; [discriminate | exact wi_ws].
Qed.

Lemma member_text_eq (b t rest : string) :
  (((dq ++ b ++ dq) ++ key_separator o ++ t) ++ rest)%string
  = (dq ++ b ++ dq ++ EmptyString ++ ":" ++ wk ++ t ++ EmptyString
     ++ rest)%string.
Proof.
  rewrite key_sep, !str_app_assoc. reflexivity.
Qed.

Lemma members_join (ms : list string) (kjs : list (string * json)) :
  Forall2 (MemberText o) ms kjs -> ms <> [] ->
  forall w, is_ws w = true -> Members (w ++ join (item_separator o) ms) kjs.
Proof.
  induction 1 as [|m [k j] ms kjs Hm Hr IH]; intros N w W;
    [contradiction N; reflexivity|].
  destruct Hm as [t [-> Vt]]; cbn [fst snd] in *.
  destruct (encode_string_body o k) as [b [-> Hb]].
  destruct ms as [|m' ms'].
  - inversion Hr; subst.
    change (Members (w ++ ((dq ++ b ++ dq) ++ key_separator o ++ t)) [(k, j)]).
    rewrite <- (str_app_nil_r ((dq ++ b ++ dq) ++ key_separator o ++ t)).
    rewrite member_text_eq.
    apply M_last; try reflexivity; assumption.
  - rewrite join_cons.
    replace (((dq ++ b ++ dq) ++ key_separator o ++ t) ++ item_separator o
             ++ join (item_separator o) (m' :: ms'))%string
      with (((dq ++ b ++ dq) ++ key_separator o ++ t)
            ++ "," ++ (wi ++ join (item_separator o) (m' :: ms')))%string
      by (rewrite item_sep at 2; reflexivity).
    rewrite member_text_eq.
    apply M_more; try reflexivity; try assumption.
    apply IH; [discriminate | exact wi_ws].
Qed.

Variable py : Interpreter.
Hypothesis float_repr_number :
  forall q, is_json_number (float_repr py q) = true.

(** Where a value has a JSON counterpart, [dumps] returns a text, and
    the text is a JSON value that denotes this counterpart. *)
Theorem dumps_denotes (v : pyval) :
  forall j, json_of py v = Some j ->
            exists t, dumps py o v = Ok t /\ Value t j.
Proof.
  induction v as [|b|z|q|f|s|l IH|d IH|cls] using pyval_ind;
    intros j E; simpl in E |- *; try discriminate E.
  - injection E as <-. eexists; split; [reflexivity|constructor].
  - injection E as <-. destruct b; eexists; split; try reflexivity; constructor.
  - unfold repr_int. destruct (int_fits py z); [|discriminate E].
    injection E as <-. eexists; split; [reflexivity|].
    apply V_number, str_of_int_number.
  - injection E as <-. eexists; split; [reflexivity|].
    apply V_number, float_repr_number.
  - injection E as <-. eexists; split; [reflexivity|].
    destruct (encode_string_body o s) as [b [-> Hb]].
    apply V_string, Hb.
  - destruct (option_all (json_of py) l) as [js|] eqn:O;
      [|discriminate E].
    injection E as <-.
    destruct (result_all_Forall2 (dumps py o) (json_of py)
                Value l IH js O) as [ts [D F]].
    rewrite D. eexists; split; [reflexivity|].
    destruct ts as [|t ts].
    + inversion F; subst. apply (V_array_empty EmptyString). reflexivity.
    + apply V_array.
      apply (elements_join (t :: ts) js F) with (w := EmptyString);
        [discriminate | reflexivity].
  - match type of E with
    | option_map _ (option_all ?g d) = _ =>
        destruct (option_all g d) as [kjs|] eqn:O; [|discriminate E];
        injection E as <-;
        match goal with
        | |- context [result_all ?f d] =>
            destruct (result_all_Forall2 f g (MemberText o) d) with (cs := kjs)
              as [ms [D F]]; [|exact O|]
        end
    end.
    + apply (Forall_impl _ (P := fun kv => forall j, json_of py (snd kv) = Some j ->
                                  exists t, dumps py o (snd kv) = Ok t
                                            /\ Value t j)); [|exact IH].
      intros [k x] Hx c Ec; simpl in *.
      destruct (json_of py x) as [jx|]; [|discriminate Ec].
      injection Ec as <-.
      destruct (Hx jx eq_refl) as [t [Dt Vt]]. rewrite Dt.
      eexists; split; [reflexivity|]. exists t; split; [reflexivity|exact Vt].
    + rewrite D. eexists; split; [reflexivity|].
      destruct ms as [|m ms].
      * inversion F; subst. apply (V_object_empty EmptyString). reflexivity.
      * apply V_object.
        apply (members_join (m :: ms) kjs F) with (w := EmptyString);
          [discriminate | reflexivity].
Qed.
End Separators.

Section Encoder.
Variable py : Interpreter.

Lemma json_safe_json_of (v : pyval) :
  json_safe py v = true -> exists j, json_of py v = Some j.
Proof.
  unfold json_safe.
  induction v as [|b|z|q|f|s|l IH|d IH|cls] using pyval_ind;
    intros S; simpl in S |- *; try discriminate S; try (eexists; reflexivity).
  - rewrite S. eexists; reflexivity.
  - assert (A : exists js, option_all (json_of py) l = Some js).
    { induction IH as [|x r Hx Hr IHr]; simpl in S |- *; [eexists; reflexivity|].
      apply andb_true_iff in S as [Sx Sr].
      destruct (Hx Sx) as [j ->]. destruct (IHr Sr) as [js ->].
      eexists; reflexivity. }
    destruct A as [js ->]. eexists; reflexivity.
  - match goal with
    | |- context [option_all ?g d] =>
        assert (A : exists kjs, option_all g d = Some kjs)
    end.
    { induction IH as [|[k x] r Hx Hr IHr]; simpl in S |- *; [eexists; reflexivity|].
      apply andb_true_iff in S as [Sx Sr].
      destruct (Hx Sx) as [j Ej]; simpl in Ej; rewrite Ej.
      destruct (IHr Sr) as [kjs ->].
      eexists; reflexivity. }
    destruct A as [kjs ->]. eexists; reflexivity.
Qed.

(** A dict becomes an object with the same keys in the same order. *)
Lemma json_of_dict (d : dict) (j : json) :
  json_of py (VDict d) = Some j ->
  exists members, j = JObject members /\ map fst members = map fst d.
Proof.
  simpl.
  match goal with
  | |- context [option_all ?g d] => destruct (option_all g d) as [kjs|] eqn:O
  end; intros E; [|discriminate E].
  injection E as <-. exists kjs. split; [reflexivity|].
  revert kjs O. induction d as [|[k x] r IH]; intros kjs O; simpl in O.
  - injection O as <-. reflexivity.
  - destruct (json_of py x) as [jx|]; [|discriminate O].
    match type of O with
    | match ?o with _ => _ end = _ => destruct o as [kjs'|] eqn:O'; [|discriminate O]
    end.
    injection O as <-. simpl. f_equal. apply IH. reflexivity.
Qed.

(** *** What [dumps] accepts *)

Lemma result_all_outcome {A B : Type} (f : A -> result B) (enc : A -> bool)
    (P : PyExc -> Prop) (l : list A) :
  Forall (fun x => if enc x then exists t, f x = Ok t
                   else exists e, f x = Raise e /\ P e) l ->
  if forallb enc l then exists ts, result_all f l = Ok ts
  else exists e, result_all f l = Raise e /\ P e.
Proof.
  induction 1 as [|x r Hx Hr IH]; simpl; [eexists; reflexivity|].
  destruct (enc x); simpl.
  - destruct Hx as [t ->].
    destruct (forallb enc r).
    + destruct IH as [ts ->]. eexists; reflexivity.
    + destruct IH as [e [-> He]]. exists e; split; [reflexivity|exact He].
  - destruct Hx as [e [-> He]]. exists e; split; [reflexivity|exact He].
Qed.

(** [dumps] returns a text for a value it accepts and raises one of the
    exceptions of the encoder otherwise. *)
Lemma dumps_outcome (o : Options) (v : pyval) :
  if encodable py (allow_nan o) v then exists t, dumps py o v = Ok t
  else exists e, dumps py o v = Raise e /\ encoder_error py (allow_nan o) e.
Proof.
  induction v as [|b|z|q|f|s|l IH|d IH|cls] using pyval_ind; simpl;
    try (eexists; reflexivity).
  - destruct b; eexists; reflexivity.
  - unfold repr_int. destruct (int_fits py z).
    + eexists; reflexivity.
    + eexists; split; [reflexivity|]. right; right; reflexivity.
  - destruct (allow_nan o).
    + eexists; reflexivity.
    + eexists; split; [reflexivity|]. right; left; split; reflexivity.
  - pose proof (result_all_outcome (dumps py o) (encodable py (allow_nan o))
                  (encoder_error py (allow_nan o)) l IH) as H.
    destruct (forallb (encodable py (allow_nan o)) l).
    + destruct H as [ts ->]. eexists; reflexivity.
    + destruct H as [e [-> He]]. exists e; split; [reflexivity|exact He].
  - match goal with
    | |- context [result_all ?f d] =>
        pose proof (result_all_outcome f
                      (fun kv => encodable py (allow_nan o) (snd kv))
                      (encoder_error py (allow_nan o)) d) as H
    end.
    match type of H with
    | ?P -> _ => assert (HP : P); [|specialize (H HP)]
    end.
    { apply (Forall_impl _ (P := fun kv =>
               if encodable py (allow_nan o) (snd kv)
               then exists t, dumps py o (snd kv) = Ok t
               else exists e, dumps py o (snd kv) = Raise e
                              /\ encoder_error py (allow_nan o) e));
        [|exact IH].
      intros [k x]; simpl. destruct (encodable py (allow_nan o) x).
      - intros [t ->]. eexists; reflexivity.
      - intros [e [-> He]]. exists e; split; [reflexivity|exact He]. }
    destruct (forallb (fun kv => encodable py (allow_nan o) (snd kv)) d).
    + destruct H as [ts ->]. eexists; reflexivity.
    + destruct H as [e [-> He]]. exists e; split; [reflexivity|exact He].
  - eexists; split; [reflexivity|]. left; eexists; reflexivity.
Qed.

Lemma encodable_set (nan : bool) (k : string) (v : pyval) (d : dict) :
  encodable py nan v = true -> encodable py nan (VDict d) = true ->
  encodable py nan (VDict (dict_set k v d)) = true.
Proof.
  intros Sv. induction d as [|[k0 v0] r IH]; simpl; intros S.
  - rewrite Sv; reflexivity.
  - apply andb_true_iff in S as [S0 Sr].
    destruct (String.eqb k k0); simpl.
    + rewrite Sv; exact Sr.
    + rewrite S0. exact (IH Sr).
Qed.

Lemma encodable_update (nan : bool) (o : dict) : forall d : dict,
  encodable py nan (VDict d) = true -> encodable py nan (VDict o) = true ->
  encodable py nan (VDict (dict_update d o)) = true.
Proof.
  induction o as [|[k v] r IH]; intros d Sd So; [exact Sd|].
  simpl in So. apply andb_true_iff in So as [Sv Sr].
  rewrite dict_update_cons. apply IH; [|exact Sr].
  apply encodable_set; assumption.
Qed.

Lemma json_safe_set (k : string) (v : pyval) (d : dict) :
  json_safe py v = true -> json_safe py (VDict d) = true ->
  json_safe py (VDict (dict_set k v d)) = true.
Proof. apply encodable_set. Qed.

Lemma json_safe_update (o : dict) : forall d : dict,
  json_safe py (VDict d) = true -> json_safe py (VDict o) = true ->
  json_safe py (VDict (dict_update d o)) = true.
Proof. apply encodable_update. Qed.

(** A value that has a JSON counterpart is accepted under either
    setting of [allow_nan]. *)
Lemma json_safe_encodable (nan : bool) (v : pyval) :
  json_safe py v = true -> encodable py nan v = true.
Proof.
  unfold json_safe.
  induction v as [|b|z|q|f|s|l IH|d IH|cls] using pyval_ind; simpl;
    intros S; try exact S; try reflexivity; try discriminate S.
  - induction IH as [|x r Hx Hr IHr]; simpl in *; [reflexivity|].
    apply andb_true_iff in S as [Sx Sr].
    rewrite (Hx Sx), (IHr Sr). reflexivity.
  - induction IH as [|[k x] r Hx Hr IHr]; simpl in *; [reflexivity|].
    apply andb_true_iff in S as [Sx Sr].
    rewrite (Hx Sx), (IHr Sr). reflexivity.
Qed.

(** An integer of at most 640 digits is within any limit. *)
Lemma int_fits_small (z : Z) :
  (digits z <= 640)%nat -> int_fits py z = true.
Proof.
  unfold int_fits. destruct (int_max_str_digits py) as [n|]; [|reflexivity].
  intros H. apply Nat.leb_le. lia.
Qed.
End Encoder.

Lemma dict_get_In {V : Type} (k : string) (v : V) (d : list (string * V)) :
  dict_get k d = Some v -> In (k, v) d.
Proof.
  induction d as [|[k0 v0] r IH]; simpl; [discriminate|].
  destruct (String.eqb k k0) eqn:E.
  - apply String.eqb_eq in E; subst. intros H; injection H as ->. left; reflexivity.
  - intros H; right; exact (IH H).
Qed.

Lemma dict_wf_In_get {V : Type} (k : string) (v : V) (d : list (string * V)) :
  dict_wf d = true -> In (k, v) d -> dict_get k d = Some v.
Proof.
  induction d as [|[k0 v0] r IH]; simpl; [contradiction|].
  intros W I. apply andb_true_iff in W as [F W]. apply negb_true_iff in F.
  destruct I as [I|I].
  - injection I as -> ->. rewrite String.eqb_refl. reflexivity.
  - destruct (String.eqb k k0) eqn:E.
    + apply String.eqb_eq in E; subst k0.
      pose proof (IH W I) as G. unfold dict_mem in F. rewrite G in F.
      discriminate F.
    + exact (IH W I).
Qed.

(** Every entry of a well-formed [other] is in the updated dict, so a
    value of [other] that is not accepted is in the result. *)
Lemma encodable_update_inv (py : Interpreter) (nan : bool) (o d : dict) :
  dict_wf o = true ->
  encodable py nan (VDict (dict_update d o)) = true ->
  encodable py nan (VDict o) = true.
Proof.
  intros W S. simpl in S |- *.
  rewrite forallb_forall in S |- *.
  intros [k v] I. apply S.
  apply dict_get_In. rewrite dict_get_update by exact W.
  rewrite (dict_wf_In_get k v o W I). reflexivity.
Qed.

Lemma dict_mem_same_keys {V W : Type} (k : string)
    (d : list (string * V)) (d' : list (string * W)) :
  map fst d = map fst d' -> dict_mem k d = dict_mem k d'.
Proof.
  revert d'. induction d as [|[k0 v0] r IH]; intros [|[k1 v1] r'] E;
    try discriminate E; [reflexivity|].
  simpl in E. injection E as -> E.
  specialize (IH r' E). unfold dict_mem in *; simpl.
  destruct (String.eqb k k1); [reflexivity|exact IH].
Qed.

Lemma dict_mem_update_l {V : Type} (k : string) (o : list (string * V)) :
  forall d, dict_mem k d = true -> dict_mem k (dict_update d o) = true.
Proof.
  induction o as [|[k0 v0] r IH]; intros d H; [exact H|].
  rewrite dict_update_cons. apply IH. rewrite dict_mem_set, H.
  destruct (String.eqb k k0); reflexivity.
Qed.

(** *** Printable output *)

Lemma printable_app (a b : string) :
  printable (a ++ b) = printable a && printable b.
Proof.
  induction a as [|c a IH]; simpl; [reflexivity|].
  rewrite IH, andb_assoc. reflexivity.
Qed.

Lemma printable_escape_char (c : ascii) : printable (escape_char c) = true.
Proof. destruct c as [[] [] [] [] [] [] [] []]; reflexivity. Qed.

Lemma printable_escape_body (s : string) : printable (escape_body s) = true.
Proof.
  induction s as [|c s IH]; simpl; [reflexivity|].
  rewrite printable_app, printable_escape_char, IH. reflexivity.
Qed.

Lemma printable_encode (s : string) :
  printable (encode_basestring_ascii s) = true.
Proof.
  unfold encode_basestring_ascii.
  rewrite !printable_app, printable_escape_body. reflexivity.
Qed.

Lemma printable_uint (d : Decimal.uint) :
  printable (NilEmpty.string_of_uint d) = true.
Proof. induction d; simpl; auto. Qed.

Lemma printable_str_of_int (z : Z) : printable (str_of_int z) = true.
Proof.
  unfold str_of_int. destruct z as [|p|p]; simpl; try reflexivity;
    apply printable_uint.
Qed.

Lemma printable_join (ts : list string) :
  Forall (fun t => printable t = true) ts -> printable (join ", " ts) = true.
Proof.
  induction 1 as [|t r Ht Hr IH]; [reflexivity|].
  destruct r as [|t' r']; [exact Ht|].
  rewrite join_cons, !printable_app, Ht, IH. reflexivity.
Qed.

Lemma result_all_Forall {A B : Type} (f : A -> result B) (P : B -> Prop)
    (l : list A) :
  Forall (fun x => forall b, f x = Ok b -> P b) l ->
  forall bs, result_all f l = Ok bs -> Forall P bs.
Proof.
  induction 1 as [|x r Hx Hr IH]; simpl; intros bs E.
  - injection E as <-. constructor.
  - destruct (f x) as [b|e] eqn:Fx; [|discriminate E].
    destruct (result_all f r) as [bs'|e]; [|discriminate E].
    injection E as <-. constructor; [apply Hx; reflexivity | apply IH; reflexivity].
Qed.

(** With the default options, and with a float printer that writes
    printable characters, all that [dumps] writes is printable ASCII. *)
Lemma dumps_printable (py : Interpreter) :
  (forall q, printable (float_repr py q) = true) ->
  forall v t, dumps py default_options v = Ok t -> printable t = true.
Proof.
  intros Hf.
  induction v as [|b|z|q|f|s|l IH|d IH|cls] using pyval_ind; simpl;
    intros t E; try discriminate E.
  - injection E as <-; reflexivity.
  - destruct b; injection E as <-; reflexivity.
  - unfold repr_int in E. destruct (int_fits py z); [|discriminate E].
    injection E as <-. apply printable_str_of_int.
  - injection E as <-. apply Hf.
  - injection E as <-. destruct f; reflexivity.
  - injection E as <-. apply printable_encode.
  - destruct (result_all (dumps py default_options) l) as [ts|e] eqn:R;
      [|discriminate E].
    injection E as <-.
    pose proof (result_all_Forall _ (fun t => printable t = true) l IH ts R) as F.
    simpl. rewrite printable_app, (printable_join ts F). reflexivity.
  - match type of E with
    | match result_all ?f d with _ => _ end = _ =>
        destruct (result_all f d) as [ts|e] eqn:R; [|discriminate E];
        pose proof (result_all_Forall f (fun t => printable t = true) d) as F
    end.
    injection E as <-.
    cbn [printable]. rewrite printable_app, (printable_join ts); [reflexivity|].
    apply F; [|exact R].
    apply (Forall_impl _ (P := fun kv => forall t,
               dumps py default_options (snd kv) = Ok t -> printable t = true));
      [|exact IH].
    intros [k x] Hx b; cbn [fst snd] in *.
    destruct (dumps py default_options x) as [t|e]; [|discriminate].
    intros Eb; injection Eb as <-.
    cbn [printable]. rewrite !printable_app, printable_escape_body.
    cbn [printable]. rewrite (Hx t eq_refl). reflexivity.
Qed.

End JsonFacts.

(** ** The exception handlers *)

Module HandlerFacts.
Import ErrorHandler ErrorHandler.GeoAnalyticsAPIException.
Import Json JsonFacts.

Ltac run_handler :=
  unfold custom_exception_handler, general_exception_handler,
    validation_exception_handler, http_exception_handler,
    import_get_logger, Logger.LoggerAdapter.log, Logger.LoggerAdapter.process,
    Logging.log, Logging.bind, Logging.try_except, Logging.handle,
    Logging.print, Logging.ret, Logging.raise, Logging.lift.

(** The constructor of a response returns for a content that has a JSON
    counterpart, keeping the content and the status, and raises an
    exception of the encoder otherwise. *)
Lemma render_outcome (py : Interpreter) (status : Z) (content : pyval) :
  if json_safe py content
  then exists body, JSONResponse.render py content = Ok body
                    /\ JSONResponse.__init__ py status content
                       = Ok (JSONResponse.mk status content body)
  else exists e, JSONResponse.__init__ py status content = Raise e
                 /\ encoder_error py false e.
Proof.
  unfold JSONResponse.__init__, JSONResponse.render, json_safe.
  pose proof (dumps_outcome py JSONResponse.render_options content) as H.
  cbn [allow_nan JSONResponse.render_options] in H.
  destruct (encodable py false content).
  - destruct H as [t ->]. exists t; split; reflexivity.
  - destruct H as [e [-> He]]. exists e; split; [reflexivity|exact He].
Qed.

Lemma init_inv (py : Interpreter) (status : Z) (content : pyval)
    (resp : JSONResponse.t) :
  JSONResponse.__init__ py status content = Ok resp ->
  JSONResponse.status_code resp = status
  /\ JSONResponse.content resp = content
  /\ JSONResponse.render py content = Ok (JSONResponse.body resp)
  /\ json_safe py content = true.
Proof.
  intros E. pose proof (render_outcome py status content) as H.
  destruct (json_safe py content).
  - destruct H as [body [R I]]. rewrite I in E. injection E as <-.
    repeat split; assumption.
  - destruct H as [e [I _]]. rewrite I in E. discriminate E.
Qed.

(** The body of a response is a JSON text that denotes its content. *)
Lemma render_denotes (py : Interpreter) (content : pyval) (body : string) :
  (forall q, is_json_number (float_repr py q) = true) ->
  JSONResponse.render py content = Ok body ->
  exists j, json_of py content = Some j /\ JsonText body j.
Proof.
  intros Hf R.
  pose proof (dumps_outcome py JSONResponse.render_options content) as H.
  cbn [allow_nan JSONResponse.render_options] in H.
  unfold JSONResponse.render in R.
  destruct (encodable py false content) eqn:S.
  - destruct (json_safe_json_of py content S) as [j J].
    destruct (dumps_denotes JSONResponse.render_options EmptyString EmptyString
                eq_refl eq_refl eq_refl eq_refl py Hf content j J)
      as [t [D V]].
    rewrite D in R. injection R as <-.
    exists j. split; [exact J|].
    exists EmptyString, t, EmptyString.
    rewrite str_app_nil_r. repeat split; try reflexivity. exact V.
  - destruct H as [e [D _]]. rewrite D in R. discriminate R.
Qed.

Lemma custom_exception_handler_returns w request exc out :
  fst (custom_exception_handler w request exc out)
  = JSONResponse.__init__ (python w) (status_code exc) (custom_content w exc).
Proof.
  run_handler. unfold custom_content.
  destruct (logger_importable w); simpl.
  - destruct (isEnabledFor _ _); reflexivity.
  - reflexivity.
Qed.

Lemma custom_exception_handler_without_logger w request exc out :
  logger_importable w = false ->
  custom_exception_handler w request exc out
  = (JSONResponse.__init__ (python w) (status_code exc) (custom_content w exc),
     out).
Proof. intros H. run_handler. rewrite H. reflexivity. Qed.

Lemma general_exception_handler_returns w request exc out :
  fst (general_exception_handler w request exc out)
  = JSONResponse.__init__ (python w) 500 (general_content w).
Proof.
  run_handler. unfold general_content.
  destruct (logger_importable w); simpl.
  - destruct (isEnabledFor _ _); reflexivity.
  - reflexivity.
Qed.

Lemma general_exception_handler_without_logger w request exc out :
  logger_importable w = false ->
  general_exception_handler w request exc out
  = (JSONResponse.__init__ (python w) 500 (general_content w),
     mkOutput (handled out)
       (printed out
        ++ [ "CRITICAL ERROR [" ++ uuid4 w ++ "]: " ++ exc_text exc ++ nl
             ++ format_exc (sys_exc_info w) ])).
Proof. intros H. run_handler. rewrite H. reflexivity. Qed.

Lemma format_exc_not_empty active : str_truthy (format_exc active) = true.
Proof.
  destruct active as [[ty tx tb]|]; [|reflexivity].
  unfold format_exc, format_exception, format_exception_only; simpl.
  destruct tb; simpl; [|reflexivity].
  destruct tx; simpl.
  - destruct ty; reflexivity.
  - destruct ty; reflexivity.
Qed.

(** The status codes of the module have three digits. *)
Lemma int_fits_status (py : Interpreter) (z : Z) :
  In z [400; 404; 422; 429; 500] -> int_fits py z = true.
Proof.
  intros I. apply int_fits_small.
  simpl in I.
  repeat (destruct I as [<-|I]; [apply Nat.leb_le; reflexivity|]).
  contradiction.
Qed.

(** The content of the catch-all handler holds texts and the status
    500: the constructor of the response returns on it. *)
Lemma general_content_safe w : json_safe (python w) (general_content w) = true.
Proof.
  unfold general_content, build_error_response, json_safe.
  pose proof (int_fits_status (python w) 500) as F.
  destruct (debug_enabled w); simpl.
  - rewrite format_exc_not_empty; simpl.
    rewrite F by (simpl; tauto). reflexivity.
  - rewrite F by (simpl; tauto). reflexivity.
Qed.

Lemma general_renders w :
  exists body,
    JSONResponse.render (python w) (general_content w) = Ok body
    /\ JSONResponse.__init__ (python w) 500 (general_content w)
       = Ok (JSONResponse.mk 500 (general_content w) body).
Proof.
  pose proof (render_outcome (python w) 500 (general_content w)) as H.
  rewrite general_content_safe in H. exact H.
Qed.

(** The content of the domain handler has a JSON counterpart exactly
    when the status and the details of the error have one. *)
Lemma custom_content_safe w exc :
  json_safe (python w) (custom_content w exc)
  = int_fits (python w) (status_code exc)
    && json_safe (python w) (VDict (details exc)).
Proof.
  unfold custom_content, build_error_response, json_safe.
  destruct (details exc) as [|kv r]; simpl.
  - rewrite !andb_true_r. reflexivity.
  - rewrite !andb_true_r. reflexivity.
Qed.

Lemma find_none_of_forallb {A : Type} (f : A -> bool) (l : list A) :
  forallb (fun x => negb (f x)) l = true -> find f l = None.
Proof.
  induction l as [|x r IH]; simpl; [reflexivity|].
  intros H; apply andb_true_iff in H as [F H].
  apply negb_true_iff in F. rewrite F. auto.
Qed.

Lemma bind_kwargs_fresh c kwargs :
  kwargs_fresh c kwargs = true -> bind_kwargs (named_params c) kwargs = Ok tt.
Proof.
  unfold kwargs_fresh, bind_kwargs. intros H.
  rewrite (find_none_of_forallb _ _ H). reflexivity.
Qed.

(** What [construct] builds when the call is accepted. *)
Lemma construct_fresh c kwargs :
  kwargs_fresh c kwargs = true ->
  exists msg,
    construct c kwargs
    = Ok (GeoAnalyticsAPIException.mk
            (match c with
             | NewDatasetNotFound _ => DatasetNotFound
             | NewInvalidDataFormat _ => InvalidDataFormat
             | NewAnalyticsProcessing _ _ => AnalyticsProcessing
             | NewRateLimitExceeded _ => RateLimitExceeded
             end)
            msg (documented_status c) (documented_code c)
            (dict_update (documented_fields c) kwargs)).
Proof.
  intros H. pose proof (bind_kwargs_fresh c kwargs H) as B.
  assert (T : forall d : dict, dict_truthy d = true ->
              (if dict_truthy (dict_update d kwargs)
               then dict_update d kwargs else []) = dict_update d kwargs)
    by (intros d Hd; rewrite dict_truthy_update by exact Hd; reflexivity).
  destruct c as [dataset_id|reason|operation reason|[n|]];
    simpl in B |- *;
    unfold DatasetNotFoundException, InvalidDataFormatException,
      AnalyticsProcessingException, RateLimitExceededException, __init__;
    rewrite B; simpl str_truthy; cbv iota;
    rewrite T by reflexivity; eexists; reflexivity.
Qed.

Lemma documented_status_fits (py : Interpreter) (c : DomainCall) :
  int_fits py (documented_status c) = true.
Proof.
  apply int_fits_status. destruct c; simpl; tauto.
Qed.










End HandlerFacts.

(** ** The structured logger *)

Module LoggerFacts.
Import Logger.

(** A record whose message does not fit its arguments is not
    formatted. *)
Lemma log_data_message_raises w record e :
  getMessage (python w) record = Raise e ->
  JSONFormatter.log_data w record = Raise e.
Proof. intros H. unfold JSONFormatter.log_data. rewrite H. reflexivity. Qed.

Lemma log_data_returns w record message :
  getMessage (python w) record = Ok message ->
  exc_info record <> Some None ->
  exists defaults,
    JSONFormatter.log_data w (without_extra_fields record) = Ok defaults
    /\ firstn 7 defaults = record_entries w record message
    /\ JSONFormatter.log_data w record
       = Ok (match extra_fields record with
             | Some fields => dict_update defaults fields
             | None => defaults
             end).
Proof.
  intros M H. unfold JSONFormatter.log_data.
  change (getMessage (python w) (without_extra_fields record))
    with (getMessage (python w) record).
  rewrite M; simpl.
  destruct (exc_info record) as [[e|]|]; [| contradiction H; reflexivity |];
    eexists; (split; [reflexivity|]); (split; [|reflexivity]);
    destruct (request_id_var w) as [[|c rid]|]; reflexivity.
Qed.

(** The entry for the correlation id among the defaults. *)
Lemma log_data_defaults_request_id w record defaults :
  JSONFormatter.log_data w (without_extra_fields record) = Ok defaults ->
  dict_get "request_id" defaults
  = match request_id_var w with
    | Some rid => if str_truthy rid then Some (VStr rid) else None
    | None => None
    end.
Proof.
  unfold JSONFormatter.log_data.
  change (getMessage (python w) (without_extra_fields record))
    with (getMessage (python w) record).
  destruct (getMessage (python w) record) as [message|e]; [|discriminate].
  simpl.
  destruct (exc_info record) as [[e|]|]; [| discriminate |];
    intros E; injection E as <-;
    destruct (request_id_var w) as [[|c rid]|]; reflexivity.
Qed.




(** C7, as amended. For a record whose message fits its arguments,
    that carries a real exception or none, and whose extra fields have
    no key [request_id]: a correlation id that is set and not empty is
    the [request_id] of the formatted record; without a correlation id,
    and with an empty one, the record has no [request_id]. *)
Theorem C7_correlation_id (w : World) (record : LogRecord) (message : string) :
  getMessage (python w) record = Ok message ->
  exc_info record <> Some None ->
  (forall fields, extra_fields record = Some fields ->
                  dict_mem "request_id" fields = false) ->
  exists data,
    JSONFormatter.log_data w record = Ok data
    /\ (forall rid, request_id_var w = Some rid -> rid <> EmptyString ->
                    dict_get "request_id" data = Some (VStr rid))
    /\ (request_id_var w = None -> dict_get "request_id" data = None)
    /\ (request_id_var w = Some EmptyString ->
        dict_get "request_id" data = None).
Proof.
  intros M X F.
  destruct (log_data_returns w record message M X) as [defaults [D1 [_ D2]]].
  pose proof (log_data_defaults_request_id w record defaults D1) as R.
  eexists. split; [exact D2|].
  assert (G : dict_get "request_id"
                (match extra_fields record with
                 | Some fields => dict_update defaults fields
                 | None => defaults
                 end) = dict_get "request_id" defaults).
  { destruct (extra_fields record) as [fields|]; [|reflexivity].
    apply dict_get_update_absent, F; reflexivity. }
  rewrite G, R.
  split; [|split].
  - intros rid -> N. destruct rid; [contradiction N; reflexivity|reflexivity].
  - intros ->; reflexivity.
  - intros ->; reflexivity.
Qed.

(** C7 at the correlation id [req-42]. *)
Lemma C7_correlation_id_witness :
  exists data,
    JSONFormatter.log_data (Examples.with_request_id (Some "req-42") Examples.world0)
      (Examples.info_record (Some [("region", VStr "Europe")])) = Ok data
    /\ (forall rid, Some "req-42" = Some rid -> rid <> EmptyString ->
                    dict_get "request_id" data = Some (VStr rid))
    /\ (Some "req-42" = None -> dict_get "request_id" data = None)
    /\ (Some "req-42" = Some EmptyString -> dict_get "request_id" data = None).
Proof.
  apply (C7_correlation_id
           (Examples.with_request_id (Some "req-42") Examples.world0)
           (Examples.info_record (Some [("region", VStr "Europe")]))
           "regions listed").
  - reflexivity.
  - discriminate.
  - intros fields E; injection E as <-; reflexivity.
Defined.

(** C7, as stated, fails in three ways. A call whose extra fields hold
    a key [request_id] shows that value and not the correlation id that
    is set, and shows it also when none is set; a correlation id set to
    the empty text leaves no [request_id] in the record; and a call
    whose message does not fit its arguments is not formatted at all,
    whatever the correlation id. *)
Lemma C7_request_id_overridden_or_dropped :
  (exists data,
     JSONFormatter.log_data
       (Examples.with_request_id (Some "req-42") Examples.world0)
       (Examples.info_record (Some [("request_id", VStr "other")])) = Ok data
     /\ dict_get "request_id" data = Some (VStr "other")
     /\ VStr "other" <> VStr "req-42")
  /\ (exists data,
        JSONFormatter.log_data (Examples.with_request_id None Examples.world0)
          (Examples.info_record (Some [("request_id", VStr "other")])) = Ok data
        /\ dict_get "request_id" data <> None)
  /\ (exists data,
        JSONFormatter.log_data
          (Examples.with_request_id (Some EmptyString) Examples.world0)
          (Examples.info_record None) = Ok data
        /\ dict_get "request_id" data = None)
  /\ JSONFormatter.log_data
       (Examples.with_request_id (Some "req-42") Examples.world0)
       (Examples.count_record (VStr "x"))
     = Raise (TypeError "%d format: a real number is required, not str").
Proof.
  split; [|split; [|split]].
  - eexists; split; [reflexivity|]. split; [reflexivity|discriminate].
  - eexists; split; [reflexivity|]. discriminate.
  - eexists; split; reflexivity.
  - reflexivity.
Qed.

(** ** The performance scope *)

Lemma round2_nonneg (x : Q) : (0 <= x)%Q -> (0 <= round2 x)%Q.
Proof.
  intros H. unfold round2.
  assert (Hy : (0 <= x * 100)%Q)
    by (apply Qmult_le_0_compat; [exact H | discriminate]).
  pose proof (Qfloor_resp_le _ _ Hy) as F.
  change (Qfloor 0) with 0 in F.
  set (f := Qfloor (x * 100)) in *.
  assert (N : 0 <= match (x * 100 - inject_Z f ?= 1 # 2)%Q with
                   | Lt => f
                   | Gt => f + 1
                   | Eq => if Z.even f then f else f + 1
                   end).
  { destruct (_ ?= _)%Q; [destruct (Z.even f)| |]; lia. }
  unfold Qle; simpl. lia.
Qed.

Lemma enter_returns w self out :
  exists out1,
    PerformanceLogger.__enter__ w self out
    = (Ok (PerformanceLogger.mk (PerformanceLogger.logger self)
             (PerformanceLogger.operation self)
             (PerformanceLogger.context self) (Some (time_time w))), out1).
Proof.
  unfold PerformanceLogger.__enter__, Logging.bind, Logging.log, Logging.handle,
    Logging.ret; simpl.
  destruct (isEnabledFor _ INFO); eexists; reflexivity.
Qed.

(** C6, as amended. Let the operation inside the scope raise [e]. The
    scope raises [e] and prints nothing. When the logger lets [ERROR]
    records through, the scope hands exactly one more record to the
    handlers after what the operation left: an [ERROR] record with the
    message [Failed: ] and the operation, without arguments, with
    [success] false, a [duration_ms] and the exception [e] as its
    exception info; the duration is not negative when the clock at exit
    is not behind the clock at entry. When the logger does not let
    [ERROR] records through, the scope hands over no record. *)
Theorem C6_scope_failure (w_enter w_exit : World)
    (self : PerformanceLogger.t) (body : PerformanceLogger.t -> IO unit)
    (e : PyExc) (out out2 : Output) :
  (forall scope out1,
     PerformanceLogger.__enter__ w_enter self out = (Ok scope, out1) ->
     body scope out1 = (Raise e, out2)) ->
  exists out3,
    PerformanceLogger.with_ w_enter w_exit self body out = (Raise e, out3)
    /\ printed out3 = printed out2
    /\ (isEnabledFor (PerformanceLogger.logger self) ERROR = false ->
        handled out3 = handled out2)
    /\ (isEnabledFor (PerformanceLogger.logger self) ERROR = true ->
        exists record fields duration,
          handled out3 = (handled out2 ++ [record])%list
          /\ levelname record = "ERROR"
          /\ msg record = "Failed: " ++ PerformanceLogger.operation self
          /\ args record = []
          /\ exc_info record = Some (Some e)
          /\ extra_fields record = Some fields
          /\ dict_get "success" fields = Some (VBool false)
          /\ dict_get "duration_ms" fields = Some (VFloat duration)
          /\ ((time_time w_enter <= time_time w_exit)%Q -> (0 <= duration)%Q)).
Proof.
  intros B.
  destruct (enter_returns w_enter self out) as [out1 E].
  specialize (B _ _ E).
  unfold PerformanceLogger.with_. rewrite E, B.
  unfold PerformanceLogger.__exit__, Logging.bind, Logging.log, Logging.handle,
    Logging.ret; simpl.
  destruct (isEnabledFor (PerformanceLogger.logger self) ERROR); simpl.
  - eexists. split; [reflexivity|]. split; [reflexivity|].
    split; [discriminate|]. intros _.
    eexists; eexists; eexists.
    split; [reflexivity|]. simpl.
    split; [reflexivity|]. split; [reflexivity|]. split; [reflexivity|].
    split; [reflexivity|]. split; [reflexivity|].
    split; [rewrite dict_get_set; reflexivity|].
    split; [rewrite !dict_get_set; reflexivity|].
    intros T. apply round2_nonneg.
    apply Qmult_le_0_compat; [|discriminate].
    apply (proj1 (Qle_minus_iff _ _)) in T. exact T.
  - eexists. split; [reflexivity|]. split; [reflexivity|].
    split; [reflexivity|]. discriminate.
Qed.

(** C6 at a logger set up at [INFO], an operation that fails with a
    [KeyError], and an exit a quarter of a second after the entry. *)
Lemma C6_scope_failure_witness :
  exists out3,
    PerformanceLogger.with_
      (Examples.at_time (10 # 1) Examples.world0)
      (Examples.at_time (41 # 4) Examples.world0)
      (PerformanceLogger.__init__ (mkLogger "geo-analytics-api" 20) "load"
         [("region", VStr "Europe")])
      Examples.failing_body empty_output
    = (Raise Examples.key_error, out3)
    /\ printed out3 = []
    /\ (true = false ->
        handled out3
        = handled
            (snd (PerformanceLogger.__enter__
                    (Examples.at_time (10 # 1) Examples.world0)
                    (PerformanceLogger.__init__ (mkLogger "geo-analytics-api" 20)
                       "load" [("region", VStr "Europe")])
                    empty_output)))
    /\ (true = true ->
        exists record fields duration,
          handled out3
          = (handled
               (snd (PerformanceLogger.__enter__
                       (Examples.at_time (10 # 1) Examples.world0)
                       (PerformanceLogger.__init__ (mkLogger "geo-analytics-api" 20)
                          "load" [("region", VStr "Europe")])
                       empty_output))
             ++ [record])%list
          /\ levelname record = "ERROR"
          /\ msg record = "Failed: load"
          /\ args record = []
          /\ exc_info record = Some (Some Examples.key_error)
          /\ extra_fields record = Some fields
          /\ dict_get "success" fields = Some (VBool false)
          /\ dict_get "duration_ms" fields = Some (VFloat duration)
          /\ ((10 # 1 <= 41 # 4)%Q -> (0 <= duration)%Q)).
Proof.
  apply (C6_scope_failure
           (Examples.at_time (10 # 1) Examples.world0)
           (Examples.at_time (41 # 4) Examples.world0)
           (PerformanceLogger.__init__ (mkLogger "geo-analytics-api" 20) "load"
              [("region", VStr "Europe")])
           Examples.failing_body Examples.key_error empty_output
           (snd (PerformanceLogger.__enter__
                   (Examples.at_time (10 # 1) Examples.world0)
                   (PerformanceLogger.__init__ (mkLogger "geo-analytics-api" 20)
                      "load" [("region", VStr "Europe")])
                   empty_output))).
  intros scope out1 E. vm_compute in E. injection E as <- <-. reflexivity.
Defined.

(** C6, as stated, fails twice. A logger set up at level [CRITICAL]
    hands no record at all to its handlers when the operation fails; and
    when the clock is set back between entry and exit, the failure
    record carries a negative duration. *)
Lemma C6_no_record_or_negative_duration :
  (exists lg,
     setup_logger None (Some "critical") = Ok lg
     /\ PerformanceLogger.with_
          (Examples.at_time (10 # 1) Examples.world0)
          (Examples.at_time (41 # 4) Examples.world0)
          (PerformanceLogger.__init__ lg "load" [])
          Examples.failing_body empty_output
        = (Raise Examples.key_error, empty_output))
  /\ (exists lg starting record fields duration,
        setup_logger None None = Ok lg
        /\ PerformanceLogger.with_
             (Examples.at_time (10 # 1) Examples.world0)
             (Examples.at_time (5 # 1) Examples.world0)
             (PerformanceLogger.__init__ lg "load" [])
             Examples.failing_body empty_output
           = (Raise Examples.key_error, mkOutput [starting; record] [])
        /\ extra_fields record = Some fields
        /\ dict_get "duration_ms" fields = Some (VFloat duration)
        /\ (duration < 0)%Q).
Proof.
  split.
  - eexists. split; [reflexivity|]. reflexivity.
  - do 5 eexists. split; [reflexivity|].
    split; [vm_compute; reflexivity|].
    split; [reflexivity|]. split; [reflexivity|].
    reflexivity.
Qed.

End LoggerFacts.

(** ** The JSON formatter *)

Module FormatterFacts.
Import Json Logger JsonFacts LoggerFacts.

Lemma log_data_defaults_safe w record defaults :
  JSONFormatter.log_data w (without_extra_fields record) = Ok defaults ->
  json_safe (python w) (VDict defaults) = int_fits (python w) (lineno record)
  /\ dict_mem "timestamp" defaults = true
  /\ dict_mem "level" defaults = true
  /\ dict_mem "logger" defaults = true
  /\ dict_mem "message" defaults = true.
Proof.
  unfold JSONFormatter.log_data.
  change (getMessage (python w) (without_extra_fields record))
    with (getMessage (python w) record).
  destruct (getMessage (python w) record) as [message|e]; [|discriminate].
  unfold json_safe. simpl.
  destruct (exc_info record) as [[e|]|]; [| discriminate |];
    intros E; injection E as <-;
    destruct (request_id_var w) as [[|c rid]|]; simpl;
    rewrite ?andb_true_r; repeat split; reflexivity.
Qed.


Lemma sample_float_repr_number (q : Q) :
  is_json_number (Examples.sample_float_repr q) = true.
Proof. apply str_of_int_tail; reflexivity. Qed.



(** A float that is not finite is written, under the default options,
    as a word that is no JSON value. *)
Lemma dumps_nan_not_json (py : Interpreter) :
  dumps py default_options (VFloatNonFinite NaN) = Ok "NaN"
  /\ forall j, ~ Value "NaN" j.
Proof.
  split; [reflexivity|].
  intros j V. inversion V; subst; try discriminate.
Qed.

(** An integer beyond the limit of the interpreter, in the extra fields
    or as the line number, ends [format] in the [ValueError] of the
    conversion. *)
Lemma format_int_limit (w : World) (z : Z) :
  int_fits (python w) z = false ->
  JSONFormatter.format w (Examples.info_record (Some [("rows", VInt z)]))
  = Raise (int_limit_exceeded (python w)).
Proof.
  intros H. unfold JSONFormatter.format, JSONFormatter.log_data.
  simpl.
  assert (F : int_fits (python w) 7 = true)
    by (apply int_fits_small, Nat.leb_le; reflexivity).
  destruct (request_id_var w) as [[|c rid]|]; simpl; unfold repr_int;
    rewrite F, H; reflexivity.
Qed.

End FormatterFacts.

(* ===================================================================== *)
(** * Further properties of the handlers *)
(* ===================================================================== *)

Module HandlerCoverage.
Import ErrorHandler ErrorHandler.GeoAnalyticsAPIException HandlerFacts.
Import Json JsonFacts.





(** Whatever the arguments, an error never has an empty error code. *)
Theorem error_code_never_empty (class : ExceptionClass) (msg : string)
    (status : option Z) (code : option string) (dets : option dict) :
  error_code (__init__ class msg status code dets) <> EmptyString
  /\ (forall c kwargs exc, construct c kwargs = Ok exc ->
                           error_code exc <> EmptyString).
Proof.
  split.
  - simpl. destruct code as [[|c s]|]; discriminate.
  - intros c kwargs exc.
    destruct c as [dataset_id|reason|operation reason|n]; simpl;
      unfold DatasetNotFoundException, InvalidDataFormatException,
        AnalyticsProcessingException, RateLimitExceededException;
      destruct (bind_kwargs _ kwargs); intros E; try discriminate E;
      injection E as <-; discriminate.
Qed.

Lemma custom_exception_handler_with_logger w request exc out :
  logger_importable w = true ->
  custom_exception_handler w request exc out
  = (JSONResponse.__init__ (python w) (status_code exc) (custom_content w exc),
     if isEnabledFor (app_logger w) ERROR
     then mkOutput (handled out ++ [custom_log_record w request exc])
            (printed out)
     else out).
Proof.
  intros Hi. run_handler. rewrite Hi.
  unfold Logger.get_logger, app_logger, custom_content; simpl.
  destruct (isEnabledFor _ ERROR); reflexivity.
Qed.

Lemma general_exception_handler_with_logger w request exc out :
  logger_importable w = true ->
  general_exception_handler w request exc out
  = (JSONResponse.__init__ (python w) 500 (general_content w),
     if isEnabledFor (app_logger w) CRITICAL
     then mkOutput (handled out ++ [general_log_record w request exc])
            (printed out)
     else out).
Proof.
  intros Hi. run_handler. rewrite Hi.
  unfold Logger.get_logger, app_logger, general_content; simpl.
  destruct (isEnabledFor _ CRITICAL); reflexivity.
Qed.

Lemma custom_content_id w exc :
  error_field "id" (custom_content w exc) = Some (VStr (uuid4 w)).
Proof.
  unfold custom_content, build_error_response; simpl.
  destruct (details exc); reflexivity.
Qed.

Lemma general_content_id w :
  error_field "id" (general_content w) = Some (VStr (uuid4 w)).
Proof.
  unfold general_content, build_error_response; simpl.
  destruct (debug_enabled w); simpl; [|reflexivity].
  rewrite format_exc_not_empty; reflexivity.
Qed.

(** When the logger module is there and the application logger lets
    [ERROR] through, the domain handler hands exactly one record to the
    handlers and prints nothing, whether or not it can then render its
    response: an [ERROR] record named after the error code, with the
    exception being handled as its exception info and, as extra fields,
    the fresh error id, the code, the message and the details of the
    error, and the path and method of the request. A response that the
    handler returns carries the same error id. *)
Theorem custom_exception_handler_logs (w : World) (request : Request.t)
    (exc : GeoAnalyticsAPIException.t) (out : Output) :
  logger_importable w = true ->
  isEnabledFor (app_logger w) ERROR = true ->
  exists record id,
    snd (custom_exception_handler w request exc out)
    = mkOutput (handled out ++ [record]) (printed out)
    /\ id = uuid4 w
    /\ (forall resp,
          fst (custom_exception_handler w request exc out) = Ok resp ->
          error_field "id" (JSONResponse.content resp) = Some (VStr id))
    /\ levelname record = "ERROR"
    /\ Logging.name record = logger_name (app_logger w)
    /\ Logging.msg record = "API Error: " ++ error_code exc
    /\ Logging.args record = []
    /\ exc_info record = Some (sys_exc_info w)
    /\ extra_fields record
       = Some [ ("error_id", VStr id);
                ("error_code", VStr (error_code exc));
                ("message", VStr (message exc));
                ("details", VDict (details exc));
                ("path", VStr (Request.url request));
                ("method", VStr (Request.method request)) ].
Proof.
  intros Hi He.
  rewrite custom_exception_handler_with_logger by exact Hi. rewrite He.
  exists (custom_log_record w request exc), (uuid4 w).
  split; [reflexivity|]. split; [reflexivity|].
  split.
  - cbn [fst]. intros resp E.
    apply init_inv in E as [_ [-> _]]. apply custom_content_id.
  - repeat split; reflexivity.
Qed.

Lemma custom_exception_handler_logs_witness :
  exists record id,
    snd (custom_exception_handler Examples.world0 Examples.request0
           (__init__ Base "boom" None None (Some [("at", VObject "datetime")]))
           empty_output)
    = mkOutput ([] ++ [record]) []
    /\ id = "3f2b8c1e-5d4a-4e6f-9a7b-0c1d2e3f4a5b"
    /\ (forall resp,
          fst (custom_exception_handler Examples.world0 Examples.request0
                 (__init__ Base "boom" None None
                    (Some [("at", VObject "datetime")]))
                 empty_output) = Ok resp ->
          error_field "id" (JSONResponse.content resp) = Some (VStr id))
    /\ levelname record = "ERROR"
    /\ Logging.name record = "geo-analytics-api"
    /\ Logging.msg record = "API Error: INTERNAL_ERROR"
    /\ Logging.args record = []
    /\ exc_info record = Some (Some Examples.key_error)
    /\ extra_fields record
       = Some [ ("error_id", VStr id);
                ("error_code", VStr "INTERNAL_ERROR");
                ("message", VStr "boom");
                ("details", VDict [("at", VObject "datetime")]);
                ("path", VStr "http://testserver/api/regions");
                ("method", VStr "GET") ].
Proof.
  apply (custom_exception_handler_logs Examples.world0 Examples.request0
           (__init__ Base "boom" None None (Some [("at", VObject "datetime")]))
           empty_output).
  - reflexivity.
  - reflexivity.
Defined.



(** With the debug flag off, the body of the catch-all handler says
    nothing about the failure: it is the same body for any two
    exceptions, any two requests and whatever exception is being
    handled. *)
Theorem general_exception_handler_hides_failure (w : World)
    (request request' : Request.t) (exc exc' : PyExc)
    (active : option PyExc) (out out' : Output) :
  debug_enabled w = false ->
  fst (general_exception_handler w request exc out)
  = fst (general_exception_handler (set_sys_exc_info active w) request' exc'
           out').
Proof.
  intros D. rewrite !general_exception_handler_returns.
  unfold general_content.
  change (debug_enabled (set_sys_exc_info active w)) with (debug_enabled w).
  rewrite D. reflexivity.
Qed.

Lemma general_exception_handler_hides_failure_witness :
  fst (general_exception_handler Examples.world0 Examples.request0
         Examples.key_error empty_output)
  = fst (general_exception_handler
           (set_sys_exc_info (Some (mkExc "ValueError" "secret" EmptyString))
              Examples.world0)
           (Request.mk "http://testserver/api/other" "POST")
           (mkExc "ValueError" "secret" EmptyString) empty_output).
Proof.
  apply (general_exception_handler_hides_failure Examples.world0).
  reflexivity.
Defined.

Lemma lower_char_t (c : ascii) :
  lower_char c = "t"%char -> c = "t"%char \/ c = "T"%char.
Proof.
  destruct c as [[] [] [] [] [] [] [] []]; vm_compute; intros H;
    try discriminate H; auto.
Qed.

Lemma lower_char_r (c : ascii) :
  lower_char c = "r"%char -> c = "r"%char \/ c = "R"%char.
Proof.
  destruct c as [[] [] [] [] [] [] [] []]; vm_compute; intros H;
    try discriminate H; auto.
Qed.

Lemma lower_char_u (c : ascii) :
  lower_char c = "u"%char -> c = "u"%char \/ c = "U"%char.
Proof.
  destruct c as [[] [] [] [] [] [] [] []]; vm_compute; intros H;
    try discriminate H; auto.
Qed.

Lemma lower_char_e (c : ascii) :
  lower_char c = "e"%char -> c = "e"%char \/ c = "E"%char.
Proof.
  destruct c as [[] [] [] [] [] [] [] []]; vm_compute; intros H;
    try discriminate H; auto.
Qed.

(** The debug flag is on exactly when [DEBUG] is set to the word [true]
    in some mix of upper and lower case, and nothing more: no other
    word, no surrounding blank. *)
Theorem debug_enabled_iff (w : World) :
  debug_enabled w = true
  <-> exists a b c d,
        environ_DEBUG w
        = Some (String a (String b (String c (String d EmptyString))))
        /\ (a = "t" \/ a = "T")%char /\ (b = "r" \/ b = "R")%char
        /\ (c = "u" \/ c = "U")%char /\ (d = "e" \/ d = "E")%char.
Proof.
  unfold debug_enabled. split.
  - destruct (environ_DEBUG w) as [v|]; [|vm_compute; discriminate].
    intros H. apply String.eqb_eq in H.
    destruct v as [|a [|b [|c [|d [|e r]]]]]; simpl in H; try discriminate H.
    injection H as Ha Hb Hc Hd.
    exists a, b, c, d. split; [reflexivity|].
    auto using lower_char_t, lower_char_r, lower_char_u, lower_char_e.
  - intros (a & b & c & d & E & Ha & Hb & Hc & Hd). rewrite E.
    destruct Ha as [-> | ->], Hb as [-> | ->], Hc as [-> | ->],
      Hd as [-> | ->]; reflexivity.
Qed.

(** The content each handler builds: the fresh id, the clock reading
    followed by [Z], the given status, and a [traceback] key only for
    the catch-all handler under the debug flag. *)
Lemma contents_shape (w : World) (status : Z) (content : pyval) :
  (exists exc, status = status_code exc /\ content = custom_content w exc)
  \/ (exists exc, status = 422 /\ content = validation_content w exc)
  \/ (exists exc, status = StarletteHTTPException.status_code exc
                  /\ content = http_content w exc) ->
  error_field "id" content = Some (VStr (uuid4 w))
  /\ error_field "timestamp" content = Some (VStr (utcnow w ++ "Z"))
  /\ error_field "status_code" content = Some (VInt status)
  /\ error_field "traceback" content = None.
Proof.
  intros [[exc [-> ->]]|[[exc [-> ->]]|[exc [-> ->]]]].
  - unfold custom_content, build_error_response; simpl.
    destruct (details exc); repeat split; reflexivity.
  - repeat split; reflexivity.
  - repeat split; reflexivity.
Qed.

(** A response that one of the four handlers returns has, in its
    content, the fresh id, the clock reading followed by [Z], and a
    [status_code] field equal to the HTTP status of the response; its
    body is the content rendered; and a [traceback] key shows only in a
    response of the catch-all handler under the debug flag. *)
Theorem handlers_response_shape (w : World) (request : Request.t)
    (domain : GeoAnalyticsAPIException.t) (invalid : RequestValidationError.t)
    (http : StarletteHTTPException.t) (unhandled : PyExc)
    (out out' : Output) (resp : JSONResponse.t) :
  custom_exception_handler w request domain out = (Ok resp, out')
  \/ validation_exception_handler w request invalid out = (Ok resp, out')
  \/ http_exception_handler w request http out = (Ok resp, out')
  \/ general_exception_handler w request unhandled out = (Ok resp, out') ->
  error_field "id" (JSONResponse.content resp) = Some (VStr (uuid4 w))
  /\ error_field "timestamp" (JSONResponse.content resp)
     = Some (VStr (utcnow w ++ "Z"))
  /\ error_field "status_code" (JSONResponse.content resp)
     = Some (VInt (JSONResponse.status_code resp))
  /\ JSONResponse.render (python w) (JSONResponse.content resp)
     = Ok (JSONResponse.body resp)
  /\ (error_field "traceback" (JSONResponse.content resp) <> None ->
      debug_enabled w = true
      /\ general_exception_handler w request unhandled out = (Ok resp, out')).
Proof.
  intros [H|[H|[H|H]]].
  - pose proof (custom_exception_handler_returns w request domain out) as R.
    rewrite H in R. cbn [fst] in R. symmetry in R.
    apply init_inv in R as [Es [Ec [Er _]]].
    rewrite Ec, Es.
    destruct (contents_shape w (status_code domain) (custom_content w domain))
      as [A [B [C D]]]; [left; exists domain; split; reflexivity|].
    split; [exact A|]. split; [exact B|]. split; [exact C|].
    split; [exact Er|]. intros N; contradiction (N D).
  - assert (R : JSONResponse.__init__ (python w) 422
                  (validation_content w invalid) = Ok resp)
      by (injection H as H _; exact H).
    apply init_inv in R as [Es [Ec [Er _]]].
    rewrite Ec, Es.
    destruct (contents_shape w 422 (validation_content w invalid))
      as [A [B [C D]]]; [right; left; exists invalid; split; reflexivity|].
    split; [exact A|]. split; [exact B|]. split; [exact C|].
    split; [exact Er|]. intros N; contradiction (N D).
  - assert (R : JSONResponse.__init__ (python w)
                  (StarletteHTTPException.status_code http)
                  (http_content w http) = Ok resp)
      by (injection H as H _; exact H).
    apply init_inv in R as [Es [Ec [Er _]]].
    rewrite Ec, Es.
    destruct (contents_shape w (StarletteHTTPException.status_code http)
                (http_content w http))
      as [A [B [C D]]]; [right; right; exists http; split; reflexivity|].
    split; [exact A|]. split; [exact B|]. split; [exact C|].
    split; [exact Er|]. intros N; contradiction (N D).
  - pose proof (general_exception_handler_returns w request unhandled out) as R.
    rewrite H in R. cbn [fst] in R. symmetry in R.
    apply init_inv in R as [Es [Ec [Er _]]].
    rewrite Ec, Es.
    split; [apply general_content_id|].
    unfold general_content, build_error_response in Er |- *; simpl in Er |- *.
    destruct (debug_enabled w); simpl in Er |- *.
    + rewrite format_exc_not_empty in Er |- *; simpl in Er |- *.
      split; [reflexivity|]. split; [reflexivity|]. split; [exact Er|].
      intros _. split; [reflexivity|exact H].
    + split; [reflexivity|]. split; [reflexivity|]. split; [exact Er|].
      intros N; contradiction N; reflexivity.
Qed.

Lemma handlers_response_shape_witness :
  exists resp out',
    validation_exception_handler Examples.world0 Examples.request0
      (RequestValidationError.mk
         [VDict [("loc", VList [VStr "query"; VStr "limit"]);
                 ("msg", VStr "Input should be a valid integer")]])
      empty_output = (Ok resp, out')
    /\ error_field "id" (JSONResponse.content resp)
       = Some (VStr "3f2b8c1e-5d4a-4e6f-9a7b-0c1d2e3f4a5b")
    /\ error_field "timestamp" (JSONResponse.content resp)
       = Some (VStr "2024-05-01T12:00:00.000000Z")
    /\ error_field "status_code" (JSONResponse.content resp)
       = Some (VInt (JSONResponse.status_code resp))
    /\ JSONResponse.render Examples.sample_python (JSONResponse.content resp)
       = Ok (JSONResponse.body resp)
    /\ (error_field "traceback" (JSONResponse.content resp) <> None ->
        debug_enabled Examples.world0 = true
        /\ general_exception_handler Examples.world0 Examples.request0
             Examples.key_error empty_output = (Ok resp, out')).
Proof.
  eexists; eexists. split; [reflexivity|].
  apply (handlers_response_shape Examples.world0 Examples.request0
           (__init__ Base "boom" None None None)
           (RequestValidationError.mk
              [VDict [("loc", VList [VStr "query"; VStr "limit"]);
                      ("msg", VStr "Input should be a valid integer")]])
           (StarletteHTTPException.mk 404 "Not Found") Examples.key_error
           empty_output).
  right; left. reflexivity.
Defined.

End HandlerCoverage.

(* ===================================================================== *)
(** * Further properties of the logger *)
(* ===================================================================== *)

Module LoggerCoverage.
Import Json Logger JsonFacts LoggerFacts.

Lemma option_eq_dec_exc (x : option (option PyExc)) :
  x = Some None \/ x <> Some None.
Proof.
  destruct x as [[e|]|]; [right; discriminate | left; reflexivity
                         | right; discriminate].
Qed.

Lemma log_data_defaults_encodable w record defaults :
  JSONFormatter.log_data w (without_extra_fields record) = Ok defaults ->
  encodable (python w) true (VDict defaults)
  = int_fits (python w) (lineno record).
Proof.
  unfold JSONFormatter.log_data.
  change (getMessage (python w) (without_extra_fields record))
    with (getMessage (python w) record).
  destruct (getMessage (python w) record) as [message|e]; [|discriminate].
  simpl.
  destruct (exc_info record) as [[e|]|]; [| discriminate |];
    intros E; injection E as <-;
    destruct (request_id_var w) as [[|c rid]|]; simpl;
    rewrite ?andb_true_r; reflexivity.
Qed.



Lemma printable_no_line_break (s : string) :
  printable s = true ->
  forall c, In c (list_ascii_of_string s) ->
            c <> "010"%char /\ c <> "013"%char.
Proof.
  induction s as [|a s IH]; simpl; [contradiction|].
  intros P c [<-|I].
  - apply andb_true_iff in P as [P _].
    split; intros ->; discriminate P.
  - apply andb_true_iff in P as [_ P]. exact (IH P c I).
Qed.

(** What [format] returns is one line of printable ASCII: every
    character lies between the space and the tilde, so none is a line
    break, whatever the message and the fields contain. *)
Theorem format_single_line (w : World) (record : LogRecord) (text : string) :
  (forall q, printable (float_repr (python w) q) = true) ->
  JSONFormatter.format w record = Ok text ->
  printable text = true
  /\ forall c, In c (list_ascii_of_string text) ->
               c <> "010"%char /\ c <> "013"%char.
Proof.
  intros Hf E. unfold JSONFormatter.format in E.
  destruct (JSONFormatter.log_data w record) as [d|e]; [|discriminate E].
  pose proof (dumps_printable (python w) Hf (VDict d) text E) as P.
  split; [exact P | exact (printable_no_line_break text P)].
Qed.

Lemma sample_float_repr_printable (q : Q) :
  printable (Examples.sample_float_repr q) = true.
Proof.
  unfold Examples.sample_float_repr.
  rewrite printable_app, printable_str_of_int. reflexivity.
Qed.

Lemma format_single_line_witness :
  printable
    ("{" ++ dq ++ "timestamp" ++ dq ++ ": " ++ dq
     ++ "2024-05-01T12:00:00.000000Z" ++ dq ++ ", " ++ dq ++ "level" ++ dq
     ++ ": " ++ dq ++ "INFO" ++ dq ++ ", " ++ dq ++ "logger" ++ dq ++ ": "
     ++ dq ++ "geo-analytics-api" ++ dq ++ ", " ++ dq ++ "message" ++ dq
     ++ ": " ++ dq ++ "regions listed" ++ dq ++ ", " ++ dq ++ "module" ++ dq
     ++ ": " ++ dq ++ "routes" ++ dq ++ ", " ++ dq ++ "function" ++ dq ++ ": "
     ++ dq ++ "get_regions" ++ dq ++ ", " ++ dq ++ "line" ++ dq ++ ": 7, "
     ++ dq ++ "note" ++ dq ++ ": " ++ dq ++ "a\nb" ++ dq ++ "}") = true
  /\ forall c,
       In c (list_ascii_of_string
               ("{" ++ dq ++ "timestamp" ++ dq ++ ": " ++ dq
                ++ "2024-05-01T12:00:00.000000Z" ++ dq ++ ", " ++ dq ++ "level"
                ++ dq ++ ": " ++ dq ++ "INFO" ++ dq ++ ", " ++ dq ++ "logger"
                ++ dq ++ ": " ++ dq ++ "geo-analytics-api" ++ dq ++ ", " ++ dq
                ++ "message" ++ dq ++ ": " ++ dq ++ "regions listed" ++ dq
                ++ ", " ++ dq ++ "module" ++ dq ++ ": " ++ dq ++ "routes" ++ dq
                ++ ", " ++ dq ++ "function" ++ dq ++ ": " ++ dq
                ++ "get_regions" ++ dq ++ ", " ++ dq ++ "line" ++ dq ++ ": 7, "
                ++ dq ++ "note" ++ dq ++ ": " ++ dq ++ "a\nb" ++ dq ++ "}")) ->
       c <> "010"%char /\ c <> "013"%char.
Proof.
  apply (format_single_line Examples.world0
           (Examples.info_record (Some [("note", VStr ("a" ++ nl ++ "b"))]))).
  - exact sample_float_repr_printable.
  - reflexivity.
Defined.

(** The exception block. For a record whose message fits its arguments,
    that carries the exception [e] and whose extra fields have no key
    [exception], the formatted record holds, under [exception], the
    class name, the text and the formatted traceback of [e]; for a
    record without exception info it holds no [exception] entry. *)
Theorem format_exception_block (w : World) (record : LogRecord)
    (message : string) :
  getMessage (python w) record = Ok message ->
  exc_info record <> Some None ->
  (forall fields, extra_fields record = Some fields ->
                  dict_mem "exception" fields = false) ->
  exists data,
    JSONFormatter.log_data w record = Ok data
    /\ (forall e, exc_info record = Some (Some e) ->
          dict_get "exception" data
          = Some (VDict [ ("type", VStr (exc_type e));
                          ("message", VStr (exc_text e));
                          ("traceback", VStr (format_exception e)) ]))
    /\ (exc_info record = None -> dict_get "exception" data = None).
Proof.
  intros M X F.
  destruct (log_data_returns w record message M X) as [defaults [D1 [_ D2]]].
  eexists. split; [exact D2|].
  assert (G : dict_get "exception"
                (match extra_fields record with
                 | Some fields => dict_update defaults fields
                 | None => defaults
                 end) = dict_get "exception" defaults).
  { destruct (extra_fields record) as [fields|]; [|reflexivity].
    apply dict_get_update_absent, F; reflexivity. }
  rewrite G. clear G D2.
  unfold JSONFormatter.log_data in D1.
  change (getMessage (python w) (without_extra_fields record))
    with (getMessage (python w) record) in D1.
  rewrite M in D1. simpl in D1.
  destruct (exc_info record) as [[e|]|]; [| contradiction X; reflexivity |];
    injection D1 as <-; split;
    try (intros e' E'; try discriminate E'; injection E' as <-);
    try (intros E'; try discriminate E');
    destruct (request_id_var w) as [[|c rid]|]; reflexivity.
Qed.

Lemma format_exception_block_witness :
  exists data,
    JSONFormatter.log_data Examples.world0
      (Examples.error_record Examples.world0) = Ok data
    /\ (forall e, Some (Some Examples.key_error) = Some (Some e) ->
          dict_get "exception" data
          = Some (VDict [ ("type", VStr (exc_type e));
                          ("message", VStr (exc_text e));
                          ("traceback", VStr (format_exception e)) ]))
    /\ (Some (Some Examples.key_error) = None ->
        dict_get "exception" data = None).
Proof.
  apply (format_exception_block Examples.world0
           (Examples.error_record Examples.world0) "load failed").
  - reflexivity.
  - discriminate.
  - intros fields E; discriminate E.
Defined.


(** The scope on a normal exit. Entering starts the timer and, when the
    logger lets [INFO] through, hands over a [Starting] record with the
    context as extra fields before the operation runs. When the
    operation returns, the scope returns; it has then handed over one
    more [INFO] record, [Completed], with [success] true, a
    [duration_ms] and no exception info (none when [INFO] is not let
    through). Both messages are texts without arguments. *)
Theorem scope_success (w_enter w_exit : World) (self : PerformanceLogger.t)
    (body : PerformanceLogger.t -> IO unit) (out out2 : Output) :
  (forall scope out1,
     PerformanceLogger.__enter__ w_enter self out = (Ok scope, out1) ->
     body scope out1 = (Ok tt, out2)) ->
  exists scope out1 out3,
    PerformanceLogger.__enter__ w_enter self out = (Ok scope, out1)
    /\ PerformanceLogger.start_time scope = Some (time_time w_enter)
    /\ PerformanceLogger.with_ w_enter w_exit self body out = (Ok tt, out3)
    /\ printed out1 = printed out /\ printed out3 = printed out2
    /\ (isEnabledFor (PerformanceLogger.logger self) INFO = false ->
        handled out1 = handled out /\ handled out3 = handled out2)
    /\ (isEnabledFor (PerformanceLogger.logger self) INFO = true ->
        exists starting completed fields duration,
          handled out1 = (handled out ++ [starting])%list
          /\ Logging.msg starting
             = "Starting: " ++ PerformanceLogger.operation self
          /\ Logging.args starting = []
          /\ extra_fields starting = Some (PerformanceLogger.context self)
          /\ handled out3 = (handled out2 ++ [completed])%list
          /\ levelname completed = "INFO"
          /\ Logging.msg completed
             = "Completed: " ++ PerformanceLogger.operation self
          /\ Logging.args completed = []
          /\ exc_info completed = None
          /\ extra_fields completed = Some fields
          /\ dict_get "success" fields = Some (VBool true)
          /\ dict_get "duration_ms" fields = Some (VFloat duration)).
Proof.
  intros B.
  destruct (enter_returns w_enter self out) as [out1 E].
  pose proof (B _ _ E) as Hb.
  eexists; exists out1.
  unfold PerformanceLogger.with_. rewrite E, Hb.
  unfold PerformanceLogger.__enter__, PerformanceLogger.__exit__, Logging.bind,
    Logging.log, Logging.handle, Logging.ret in E |- *; simpl in E |- *.
  destruct (isEnabledFor (PerformanceLogger.logger self) INFO);
    injection E as <-; simpl.
  - eexists. split; [reflexivity|]. split; [reflexivity|].
    split; [reflexivity|]. split; [reflexivity|]. split; [reflexivity|].
    split; [discriminate|]. intros _.
    do 4 eexists.
    split; [reflexivity|]. split; [reflexivity|]. split; [reflexivity|].
    split; [reflexivity|]. split; [reflexivity|]. split; [reflexivity|].
    split; [reflexivity|]. split; [reflexivity|]. split; [reflexivity|].
    split; [reflexivity|].
    split; [rewrite dict_get_set; reflexivity|].
    rewrite !dict_get_set; reflexivity.
  - eexists. split; [reflexivity|]. split; [reflexivity|].
    split; [reflexivity|]. split; [reflexivity|]. split; [reflexivity|].
    split; [intros _; split; reflexivity | discriminate].
Qed.

Lemma scope_success_witness :
  exists scope out1 out3,
    PerformanceLogger.__enter__ (Examples.at_time (10 # 1) Examples.world0)
      (PerformanceLogger.__init__ (mkLogger "geo-analytics-api" 20) "load" [])
      empty_output = (Ok scope, out1)
    /\ PerformanceLogger.start_time scope = Some (10 # 1)
    /\ PerformanceLogger.with_ (Examples.at_time (10 # 1) Examples.world0)
         (Examples.at_time (41 # 4) Examples.world0)
         (PerformanceLogger.__init__ (mkLogger "geo-analytics-api" 20) "load" [])
         Examples.logging_body empty_output = (Ok tt, out3)
    /\ printed out1 = [] /\ printed out3 = []
    /\ (true = false ->
        handled out1 = []
        /\ handled out3
           = handled
               (snd (Examples.logging_body
                       (PerformanceLogger.mk (mkLogger "geo-analytics-api" 20)
                          "load" [] (Some (10 # 1)))
                       (snd (PerformanceLogger.__enter__
                               (Examples.at_time (10 # 1) Examples.world0)
                               (PerformanceLogger.__init__
                                  (mkLogger "geo-analytics-api" 20) "load" [])
                               empty_output)))))
    /\ (true = true ->
        exists starting completed fields duration,
          handled out1 = ([] ++ [starting])%list
          /\ Logging.msg starting = "Starting: load"
          /\ Logging.args starting = []
          /\ extra_fields starting = Some []
          /\ handled out3
             = (handled
                  (snd (Examples.logging_body
                          (PerformanceLogger.mk (mkLogger "geo-analytics-api" 20)
                             "load" [] (Some (10 # 1)))
                          (snd (PerformanceLogger.__enter__
                                  (Examples.at_time (10 # 1) Examples.world0)
                                  (PerformanceLogger.__init__
                                     (mkLogger "geo-analytics-api" 20) "load" [])
                                  empty_output))))
                ++ [completed])%list
          /\ levelname completed = "INFO"
          /\ Logging.msg completed = "Completed: load"
          /\ Logging.args completed = []
          /\ exc_info completed = None
          /\ extra_fields completed = Some fields
          /\ dict_get "success" fields = Some (VBool true)
          /\ dict_get "duration_ms" fields = Some (VFloat duration)).
Proof.
  apply (scope_success (Examples.at_time (10 # 1) Examples.world0)
           (Examples.at_time (41 # 4) Examples.world0)
           (PerformanceLogger.__init__ (mkLogger "geo-analytics-api" 20) "load" [])
           Examples.logging_body empty_output
           (snd (Examples.logging_body
                   (PerformanceLogger.mk (mkLogger "geo-analytics-api" 20)
                      "load" [] (Some (10 # 1)))
                   (snd (PerformanceLogger.__enter__
                           (Examples.at_time (10 # 1) Examples.world0)
                           (PerformanceLogger.__init__
                              (mkLogger "geo-analytics-api" 20) "load" [])
                           empty_output))))).
  intros scope out1 E. vm_compute in E. injection E as <- <-. reflexivity.
Defined.


(** The scope is transparent to the outcome of the operation: the
    [with] statement returns when the operation returns and raises the
    exception the operation raises, for every operation; and the scope
    itself prints nothing. *)
Theorem scope_keeps_outcome (w_enter w_exit : World)
    (self : PerformanceLogger.t) (body : PerformanceLogger.t -> IO unit)
    (out : Output) :
  exists scope out1,
    PerformanceLogger.__enter__ w_enter self out = (Ok scope, out1)
    /\ fst (PerformanceLogger.with_ w_enter w_exit self body out)
       = fst (body scope out1)
    /\ printed (snd (PerformanceLogger.with_ w_enter w_exit self body out))
       = printed (snd (body scope out1)).
Proof.
  destruct (enter_returns w_enter self out) as [out1 E].
  eexists; exists out1. split; [exact E|].
  unfold PerformanceLogger.with_. rewrite E.
  destruct (body _ out1) as [[[]|e] out2];
    unfold PerformanceLogger.__exit__, Logging.bind, Logging.log,
      Logging.handle, Logging.ret; simpl;
    destruct (isEnabledFor _ _); split; reflexivity.
Qed.

(** What the record logged on exit carries. On any exit of a scope that
    was entered, with a logger that lets the record through, [__exit__]
    returns [False] and hands over one record whose extra fields are the
    context of the scope, with [duration_ms] and [success] set by the
    scope: every other field of the context is there with its value,
    [success] tells whether there was no exception, also when the
    context has a field of that name, and there is no further field. *)
Theorem exit_record_fields (w : World) (self : PerformanceLogger.t)
    (exc : option PyExc) (start : Q) (out : Output) :
  PerformanceLogger.start_time self = Some start ->
  dict_wf (PerformanceLogger.context self) = true ->
  isEnabledFor (PerformanceLogger.logger self)
    (match exc with Some _ => ERROR | None => INFO end) = true ->
  exists record fields,
    PerformanceLogger.__exit__ w self exc out
    = (Ok false, mkOutput (handled out ++ [record]) (printed out))
    /\ extra_fields record = Some fields
    /\ (forall k v, dict_get k (PerformanceLogger.context self) = Some v ->
                    k <> "duration_ms" -> k <> "success" ->
                    dict_get k fields = Some v)
    /\ dict_get "success" fields
       = Some (VBool (match exc with Some _ => false | None => true end))
    /\ (forall k, dict_mem k fields = true ->
                  dict_mem k (PerformanceLogger.context self) = true
                  \/ k = "duration_ms" \/ k = "success").
Proof.
  intros S W En.
  unfold PerformanceLogger.__exit__. rewrite S.
  unfold Logging.bind, Logging.log, Logging.handle, Logging.ret.
  destruct exc as [e|]; rewrite En; simpl;
    (eexists; eexists; split; [reflexivity|]; split; [reflexivity|];
     split; [|split]).
  all: try (rewrite dict_get_set; reflexivity).
  all: try (intros k v G N1 N2; rewrite !dict_get_set;
            apply String.eqb_neq in N1, N2; rewrite N1, N2;
            rewrite dict_get_update by exact W; rewrite G; reflexivity).
  all: intros k; rewrite !dict_mem_set;
    destruct (String.eqb k "success") eqn:E1;
      [apply String.eqb_eq in E1; auto|];
    destruct (String.eqb k "duration_ms") eqn:E2;
      [apply String.eqb_eq in E2; auto|];
    intros M; left; unfold dict_mem in M |- *;
    rewrite dict_get_update in M by exact W;
    destruct (dict_get k (PerformanceLogger.context self));
      [reflexivity | discriminate M].
Qed.

Lemma exit_record_fields_witness :
  exists record fields,
    PerformanceLogger.__exit__ (Examples.at_time (41 # 4) Examples.world0)
      (PerformanceLogger.mk (mkLogger "geo-analytics-api" 20) "load"
         [("region", VStr "Europe"); ("success", VStr "yes")] (Some (10 # 1)))
      (Some Examples.key_error) empty_output
    = (Ok false, mkOutput ([] ++ [record]) [])
    /\ extra_fields record = Some fields
    /\ (forall k v,
          dict_get k [("region", VStr "Europe"); ("success", VStr "yes")]
          = Some v ->
          k <> "duration_ms" -> k <> "success" -> dict_get k fields = Some v)
    /\ dict_get "success" fields = Some (VBool false)
    /\ (forall k, dict_mem k fields = true ->
                  dict_mem k [("region", VStr "Europe"); ("success", VStr "yes")]
                  = true
                  \/ k = "duration_ms" \/ k = "success").
Proof.
  apply (exit_record_fields (Examples.at_time (41 # 4) Examples.world0)
           (PerformanceLogger.mk (mkLogger "geo-analytics-api" 20) "load"
              [("region", VStr "Europe"); ("success", VStr "yes")]
              (Some (10 # 1)))
           (Some Examples.key_error) (10 # 1) empty_output).
  - reflexivity.
  - reflexivity.
  - reflexivity.
Defined.

(** A logger set up at one of the five documented levels, written in
    upper or in lower case, keeps the given name and lets a record
    through exactly when the level of the record is at or above the
    level of the logger. *)
Theorem setup_logger_threshold (name : option string) (L l : Level) :
  exists lg,
    setup_logger name (Some (getLevelName L)) = Ok lg
    /\ setup_logger name (Some (lower (getLevelName L))) = Ok lg
    /\ logger_name lg
       = match name with Some n => n | None => "geo-analytics-api" end
    /\ (isEnabledFor lg l = true <-> levelno_of L <= levelno_of l).
Proof.
  destruct L; (eexists; split; [reflexivity|]; split; [reflexivity|];
               split; [reflexivity|]);
    destruct l; vm_compute; split; intros H; congruence.
Qed.

End LoggerCoverage.

(* ===================================================================== *)
(** * The handlers and the encoder together *)
(* ===================================================================== *)

Module RenderingCoverage.
Import Json Logger ErrorHandler ErrorHandler.GeoAnalyticsAPIException.
Import JsonFacts LoggerFacts HandlerFacts HandlerCoverage.


(** The record a handler logs can be formatted only while an exception
    is being handled. Both handlers log with [exc_info=True]; called
    while no exception is active, the record they hand over carries the
    empty exception info, on which the formatter fails. *)
Theorem handler_record_needs_active_exception (w : World)
    (request : Request.t) (exc : GeoAnalyticsAPIException.t)
    (unhandled : PyExc) (out : Output) :
  logger_importable w = true ->
  isEnabledFor (app_logger w) ERROR = true ->
  exists r_domain r_general,
    snd (custom_exception_handler w request exc out)
    = mkOutput (handled out ++ [r_domain]) (printed out)
    /\ snd (general_exception_handler w request unhandled out)
       = mkOutput (handled out ++ [r_general]) (printed out)
    /\ ((exists data, JSONFormatter.log_data w r_domain = Ok data)
        <-> sys_exc_info w <> None)
    /\ ((exists data, JSONFormatter.log_data w r_general = Ok data)
        <-> sys_exc_info w <> None).
Proof.
  intros Hi He.
  assert (Hc : isEnabledFor (app_logger w) CRITICAL = true).
  { unfold isEnabledFor in *. apply Z.leb_le in He. apply Z.leb_le.
    simpl in *. lia. }
  rewrite custom_exception_handler_with_logger,
    general_exception_handler_with_logger by exact Hi.
  rewrite He, Hc.
  eexists; eexists. split; [reflexivity|]. split; [reflexivity|].
  unfold JSONFormatter.log_data, getMessage, custom_log_record,
    general_log_record, makeRecord; simpl.
  destruct (sys_exc_info w) as [e|]; split; split;
    try (intros _; discriminate);
    try (intros _; eexists; reflexivity);
    try (intros [d E]; discriminate E);
    intros H; contradiction H; reflexivity.
Qed.

Lemma handler_record_needs_active_exception_witness :
  exists r_domain r_general,
    snd (custom_exception_handler Examples.idle_world Examples.request0
           (__init__ Base "boom" None None None) empty_output)
    = mkOutput ([] ++ [r_domain]) []
    /\ snd (general_exception_handler Examples.idle_world Examples.request0
              Examples.key_error empty_output)
       = mkOutput ([] ++ [r_general]) []
    /\ ((exists data,
           JSONFormatter.log_data Examples.idle_world r_domain = Ok data)
        <-> None <> (None : option PyExc))
    /\ ((exists data,
           JSONFormatter.log_data Examples.idle_world r_general = Ok data)
        <-> None <> (None : option PyExc)).
Proof.
  apply (handler_record_needs_active_exception Examples.idle_world
           Examples.request0 (__init__ Base "boom" None None None)
           Examples.key_error empty_output).
  - reflexivity.
  - reflexivity.
Defined.

End RenderingCoverage.
